(** * asuntovahti: the Oikotie client, the listing record and the sheet wrapper

    A shallow embedding of [client.py], [data.py] and [sheets.py].

    - [Py]: the fragment of Python the program relies on (exceptions, strings,
      [range], insertion-ordered dictionaries, JSON-like values, truthiness).
    - [Datetime]: [datetime.strptime] / [strftime] for the one format string the
      program uses, ['%Y-%m-%dT%H:%M:%SZ'].
    - [Data]: the [HouseEntry] dataclass.
    - [Client]: [OTClient.location], [_params_builder], [_entry_builder],
      [_convert_ts] and the [query] generator, run to completion against a
      provider, with the log of the HTTP requests issued.
    - [Sheets]: [SheetWrapper] over a worksheet seen as a list of rows. *)

From Stdlib Require Import ZArith List String Ascii Bool Arith Lia DecimalString.
From Stdlib Require QArith_base.
Import ListNotations.

Open Scope list_scope.
Open Scope string_scope.

(* ================================================================= *)
(** ** Python fragment *)

Module Py.

(** Exceptions the modelled code can raise. *)
Inductive exn : Type :=
| TypeError
| KeyError (key : string)
| ValueError
| AttributeError.

Inductive result (A : Type) : Type :=
| Ok (a : A)
| Raise (e : exn).
Arguments Ok {A} a.
Arguments Raise {A} e.

Definition rbind {A B} (r : result A) (k : A -> result B) : result B :=
  match r with
  | Ok a => k a
  | Raise e => Raise e
  end.

(** [[f(x) for x in xs]], stopping at the first exception. *)
Fixpoint rmap {A B} (f : A -> result B) (xs : list A) : result (list B) :=
  match xs with
  | [] => Ok []
  | x :: xs' =>
      rbind (f x) (fun y => rbind (rmap f xs') (fun ys => Ok (y :: ys)))
  end.

(** *** Strings *)

Definition str1 (c : ascii) : string := String c EmptyString.

(** The characters the program names: newline, space, double quote. *)
Definition ch_newline : ascii := "010"%char.
Definition ch_space : ascii := " "%char.
Definition ch_dquote : ascii := "034"%char.

(** [s.replace(c, by)] for a one-character pattern [c]. *)
Fixpoint replace_char (c : ascii) (by_ : string) (s : string) : string :=
  match s with
  | EmptyString => EmptyString
  | String a r =>
      if Ascii.eqb a c then by_ ++ replace_char c by_ r
      else String a (replace_char c by_ r)
  end.

(** [s[:-1]]: everything but the last character; the empty string stays
    empty. *)
Fixpoint drop_last (s : string) : string :=
  match s with
  | EmptyString => EmptyString
  | String c r =>
      match r with
      | EmptyString => EmptyString
      | String _ _ => String c (drop_last r)
      end
  end.

(** [str(n)] for an [int]. *)
Definition str_int (z : Z) : string := NilZero.string_of_int (Z.to_int z).

(** [', '.join(xs)]. *)
Fixpoint join (sep : string) (xs : list string) : string :=
  match xs with
  | [] => EmptyString
  | [x] => x
  | x :: rest => x ++ sep ++ join sep rest
  end.

(** The strings of [xs] one after the other. *)
Definition joined (xs : list string) : string :=
  fold_right append EmptyString xs.

(** [str(xs)] for a list of ints: ['[1, 2]']. *)
Definition str_int_list (xs : list Z) : string :=
  "[" ++ join ", " (map str_int xs) ++ "]".

(** *** [range(start, stop, step)] *)

(** CPython computes the length first; a zero step is a [ValueError]. *)
Definition range_len (start stop step : Z) : Z :=
  if (0 <? step)%Z then
    if (start <? stop)%Z then ((stop - start - 1) / step + 1)%Z else 0%Z
  else
    if (stop <? start)%Z then ((start - stop - 1) / (- step) + 1)%Z else 0%Z.

Definition range_items (start step : Z) (n : nat) : list Z :=
  map (fun k => (start + Z.of_nat k * step)%Z) (seq 0 n).

Definition range (start stop step : Z) : result (list Z) :=
  if (step =? 0)%Z then Raise ValueError
  else Ok (range_items start step (Z.to_nat (range_len start stop step))).

(** *** Insertion-ordered dictionaries with string keys *)

Section Dict.
Context {V : Type}.

Definition dict := list (string * V).

Fixpoint dict_get (k : string) (d : dict) : option V :=
  match d with
  | [] => None
  | (k', v) :: rest => if String.eqb k' k then Some v else dict_get k rest
  end.

Definition dict_mem (k : string) (d : dict) : bool :=
  match dict_get k d with Some _ => true | None => false end.

(** [d[k] = v]: an existing key keeps its position, a new key goes last. *)
Fixpoint dict_set (k : string) (v : V) (d : dict) : dict :=
  match d with
  | [] => [(k, v)]
  | (k', v') :: rest =>
      if String.eqb k' k then (k', v) :: rest
      else (k', v') :: dict_set k v rest
  end.

(** [d.update(other)]. *)
Definition dict_update (d other : dict) : dict :=
  fold_left (fun acc kv => dict_set (fst kv) (snd kv) acc) other d.

(** [del d[k]] when [k] is present; nothing otherwise. *)
Fixpoint dict_remove (k : string) (d : dict) : dict :=
  match d with
  | [] => []
  | (k', v') :: rest =>
      if String.eqb k' k then rest else (k', v') :: dict_remove k rest
  end.

(** [d.pop(k, default)]: the value and the dictionary without [k]. *)
Definition dict_pop (k : string) (default : V) (d : dict) : V * dict :=
  match dict_get k d with
  | Some v => (v, dict_remove k d)
  | None => (default, d)
  end.

Definition dict_keys (d : dict) : list string := map fst d.
Definition dict_values (d : dict) : list V := map snd d.
End Dict.
Arguments dict V : clear implicits.

Definition str_in (k : string) (ks : list string) : bool :=
  existsb (String.eqb k) ks.

End Py.

(* ================================================================= *)
(** ** [datetime] and the format ['%Y-%m-%dT%H:%M:%SZ'] *)

Module Datetime.
Import Py.
Local Open Scope nat_scope.

Record datetime : Type := mk_datetime {
  year : nat;
  month : nat;
  day : nat;
  hour : nat;
  minute : nat;
  second : nat
}.

Definition is_leap (y : nat) : bool :=
  (y mod 4 =? 0) && (negb (y mod 100 =? 0) || (y mod 400 =? 0)).

Definition days_in_month (y m : nat) : nat :=
  match m with
  | 2 => if is_leap y then 29 else 28
  | 4 | 6 | 9 | 11 => 30
  | _ => 31
  end.

(** What the [datetime] constructor accepts ([MINYEAR = 1],
    [MAXYEAR = 9999]). *)
Definition valid (d : datetime) : bool :=
  (1 <=? year d) && (year d <=? 99 * 101) &&
  (1 <=? month d) && (month d <=? 12) &&
  (1 <=? day d) && (day d <=? days_in_month (year d) (month d)) &&
  (hour d <=? 23) && (minute d <=? 59) && (second d <=? 59).

(** *** Digits *)

Definition is_digit (c : ascii) : bool :=
  (48 <=? nat_of_ascii c) && (nat_of_ascii c <=? 57).

Definition digit_val (c : ascii) : nat := nat_of_ascii c - 48.

Definition digit_char (n : nat) : ascii := ascii_of_nat (48 + n).

(** *** [strftime]

    [datetime.strftime] hands the format to the [strftime] of the C
    library.  On Linux (glibc) [%Y] is the year as a decimal number,
    without padding: the year 999 is written [999], not [0999].  The other
    directives of the format are zero-padded to two digits. *)
Definition pad2 (n : nat) : string :=
  String (digit_char (n / 10)) (String (digit_char (n mod 10)) EmptyString).

Definition year_text (y : nat) : string := str_int (Z.of_nat y).

Definition strftime (d : datetime) : string :=
  year_text (year d) ++ "-" ++ pad2 (month d) ++ "-" ++ pad2 (day d) ++ "T" ++
  pad2 (hour d) ++ ":" ++ pad2 (minute d) ++ ":" ++ pad2 (second d) ++ "Z".

(** *** [strptime]

    The library turns the format into a regular expression, matched at the
    start of the input and ignoring case:
    [%Y] is [\d\d\d\d], [%m] is [1[0-2]|0[1-9]|[1-9]],
    [%d] is [3[0-1]|[1-2]\d|0[1-9]|[1-9]| [1-9]], [%H] is [2[0-3]|[0-1]\d|\d],
    [%M] is [[0-5]\d|\d] and [%S] is [6[0-1]|[0-5]\d|\d].
    In this format every directive is followed by a literal that is not a
    digit, so a directive matches exactly when the whole run of digits in
    front of the literal belongs to its language; the reader below takes
    that run and checks it.  Input left over after the match, a field out
    of range and a date the constructor refuses are all [ValueError]. *)

Fixpoint span_digits (s : string) : list nat * string :=
  match s with
  | EmptyString => ([], s)
  | String c r =>
      if is_digit c then
        let (ds, r') := span_digits r in (digit_val c :: ds, r')
      else ([], s)
  end.

(** One or two digits with a value in [lo .. hi] ([lo .. 9] when there is
    a single digit). *)
Definition in_field (lo hi : nat) (ds : list nat) : option nat :=
  match ds with
  | [a] => if (lo <=? a) then Some a else None
  | [a; b] =>
      let v := 10 * a + b in
      if (lo <=? v) && (v <=? hi) then Some v else None
  | _ => None
  end.

Definition read_field (lo hi : nat) (s : string) : option (nat * string) :=
  let (ds, r) := span_digits s in
  match in_field lo hi ds with
  | Some v => Some (v, r)
  | None => None
  end.

Definition read_year (s : string) : option (nat * string) :=
  let (ds, r) := span_digits s in
  match ds with
  | [a; b; c; d] => Some (1000 * a + 100 * b + 10 * c + d, r)
  | _ => None
  end.

(** [%d] also accepts a space followed by one of [1 .. 9]. *)
Definition read_day (s : string) : option (nat * string) :=
  match s with
  | String sp (String c r) =>
      if Ascii.eqb sp ch_space && is_digit c && (1 <=? digit_val c)
      then Some (digit_val c, r)
      else read_field 1 31 s
  | _ => read_field 1 31 s
  end.

(** A literal of the format, matched ignoring case. *)
Definition lower (c : ascii) : ascii :=
  let n := nat_of_ascii c in
  if (65 <=? n) && (n <=? 90) then ascii_of_nat (n + 32) else c.

Definition read_lit (c : ascii) (s : string) : option string :=
  match s with
  | String a r => if Ascii.eqb (lower a) (lower c) then Some r else None
  | EmptyString => None
  end.

Definition obind {A B} (o : option A) (k : A -> option B) : option B :=
  match o with
  | Some a => k a
  | None => None
  end.

Definition match_format (s : string) : option (datetime * string) :=
  obind (read_year s) (fun '(y, s) =>
  obind (read_lit "-"%char s) (fun s =>
  obind (read_field 1 12 s) (fun '(m, s) =>
  obind (read_lit "-"%char s) (fun s =>
  obind (read_day s) (fun '(d, s) =>
  obind (read_lit "T"%char s) (fun s =>
  obind (read_field 0 23 s) (fun '(h, s) =>
  obind (read_lit ":"%char s) (fun s =>
  obind (read_field 0 59 s) (fun '(mi, s) =>
  obind (read_lit ":"%char s) (fun s =>
  obind (read_field 0 61 s) (fun '(se, s) =>
  obind (read_lit "Z"%char s) (fun s =>
  Some (mk_datetime y m d h mi se, s))))))))))))).

Definition strptime (s : string) : result datetime :=
  match match_format s with
  | Some (d, EmptyString) => if valid d then Ok d else Raise ValueError
  | _ => Raise ValueError
  end.

(** The strings of the provider's format proper: four, two, two, two, two
    and two decimal digits around the literals [-], [-], [T], [:], [:],
    [Z], naming a date and time of day that exist. *)
Definition two (a b : ascii) : nat := 10 * digit_val a + digit_val b.

Definition valid_ts (s : string) : bool :=
  match s with
  | String y1 (String y2 (String y3 (String y4 (String s1
    (String m1 (String m2 (String s2
    (String d1 (String d2 (String s3
    (String h1 (String h2 (String s4
    (String n1 (String n2 (String s5
    (String c1 (String c2 (String s6 EmptyString))))))))))))))))))) =>
      let y := 1000 * digit_val y1 + 100 * digit_val y2
               + 10 * digit_val y3 + digit_val y4 in
      forallb is_digit [y1; y2; y3; y4; m1; m2; d1; d2; h1; h2; n1; n2; c1; c2]
      && Ascii.eqb s1 "-"%char && Ascii.eqb s2 "-"%char && Ascii.eqb s3 "T"
      && Ascii.eqb s4 ":"%char && Ascii.eqb s5 ":"%char && Ascii.eqb s6 "Z"%char
      && (1 <=? y)
      && (1 <=? two m1 m2) && (two m1 m2 <=? 12)
      && (1 <=? two d1 d2) && (two d1 d2 <=? days_in_month y (two m1 m2))
      && (two h1 h2 <=? 23) && (two n1 n2 <=? 59) && (two c1 c2 <=? 59)
  | _ => false
  end.

(** The string with the given digits around the literals of the format. *)
Definition layout (y1 y2 y3 y4 m1 m2 d1 d2 h1 h2 n1 n2 c1 c2 : ascii)
  : string :=
  String y1 (String y2 (String y3 (String y4 (String "-"%char
  (String m1 (String m2 (String "-"%char
  (String d1 (String d2 (String "T"%char
  (String h1 (String h2 (String ":"%char
  (String n1 (String n2 (String ":"%char
  (String c1 (String c2 (String "Z"%char EmptyString))))))))))))))))))).

(** *** Decimal numerals of small numbers

    [f] holds of the [n] integers from [z] on. *)
Fixpoint holds_from (f : Z -> bool) (z : Z) (n : nat) : bool :=
  match n with
  | 0 => true
  | S n' => f z && holds_from f (z + 1)%Z n'
  end.

(** The digits of the thousands, hundreds, tens and units of [z]. *)
Definition thousands (z : Z) : string :=
  String (digit_char (Z.to_nat (z / 1000)))
    (String (digit_char (Z.to_nat (z / 100 mod 10)))
       (String (digit_char (Z.to_nat (z / 10 mod 10)))
          (String (digit_char (Z.to_nat (z mod 10))) EmptyString))).

(** [str(z)] is those four digits. *)
Definition four_digits (z : Z) : bool := String.eqb (str_int z) (thousands z).

(** [str(z)] is at most three characters, all of them digits. *)
Definition short_digits (z : Z) : bool :=
  let l := list_ascii_of_string (str_int z) in
  forallb is_digit l && (List.length l <=? 3).

End Datetime.

(* ================================================================= *)
(** ** Python values: parsed JSON, plus [datetime] objects *)

Module Obj.
Import Py.

(** A JSON object is a [VDict] that lists each key once, in the order of
    the document.  A float is kept as the rational its literal denotes; the
    program only passes floats along. *)
#[warnings="-register-all"]
Inductive value : Type :=
| VNone
| VBool (b : bool)
| VInt (z : Z)
| VFloat (q : QArith_base.Q)
| VStr (s : string)
| VList (l : list value)
| VDict (d : list (string * value))
| VDatetime (d : Datetime.datetime).

(** [bool(v)], as tested by [if v] and [not v]. *)
Definition truthy (v : value) : bool :=
  match v with
  | VNone => false
  | VBool b => b
  | VInt z => negb (z =? 0)%Z
  | VFloat q => negb (QArith_base.Qnum q =? 0)%Z
  | VStr s => negb (String.eqb s EmptyString)
  | VList l => negb (Nat.eqb (List.length l) 0)
  | VDict d => negb (Nat.eqb (List.length d) 0)
  | VDatetime _ => true
  end.

(** [d.get(k, default)]. *)
Definition get_default (k : string) (default : value) (d : dict value) : value :=
  match dict_get k d with
  | Some v => v
  | None => default
  end.

End Obj.

(* ================================================================= *)
(** ** data.py *)

Module Data.
Import Py Obj.

(** The dataclass: twenty attributes, none with a default value.  The
    annotations are not enforced, an attribute holds whatever it is given. *)
Record HouseEntry : Type := mk_HouseEntry {
  id : value;
  url : value;
  description : value;
  rooms : value;
  room_configuration : value;
  price : value;
  published : value;
  size : value;
  address : value;
  district : value;
  city : value;
  country : value;
  year : value;
  building_type : value;
  longitude : value;
  latitude : value;
  brand_name : value;
  price_changed : value;
  visits : value;
  visits_weekly : value
}.

(** [HouseEntry.fields()]: the keys of [__dataclass_fields__]. *)
Definition fields : list string :=
  [ "id"; "url"; "description"; "rooms"; "room_configuration"; "price";
    "published"; "size"; "address"; "district"; "city"; "country"; "year";
    "building_type"; "longitude"; "latitude"; "brand_name"; "price_changed";
    "visits"; "visits_weekly" ].

Definition required (k : string) (data : dict value) : result value :=
  match dict_get k data with
  | Some v => Ok v
  | None => Raise TypeError
  end.

(** The generated [__init__], called with the entries of [data] as keyword
    arguments: a keyword that is not an attribute, or an attribute without
    a keyword, is a [TypeError]. *)
Definition init (data : dict value) : result HouseEntry :=
  if forallb (fun k => str_in k fields) (dict_keys data) then
    rbind (required "id" data) (fun v1 =>
    rbind (required "url" data) (fun v2 =>
    rbind (required "description" data) (fun v3 =>
    rbind (required "rooms" data) (fun v4 =>
    rbind (required "room_configuration" data) (fun v5 =>
    rbind (required "price" data) (fun v6 =>
    rbind (required "published" data) (fun v7 =>
    rbind (required "size" data) (fun v8 =>
    rbind (required "address" data) (fun v9 =>
    rbind (required "district" data) (fun v10 =>
    rbind (required "city" data) (fun v11 =>
    rbind (required "country" data) (fun v12 =>
    rbind (required "year" data) (fun v13 =>
    rbind (required "building_type" data) (fun v14 =>
    rbind (required "longitude" data) (fun v15 =>
    rbind (required "latitude" data) (fun v16 =>
    rbind (required "brand_name" data) (fun v17 =>
    rbind (required "price_changed" data) (fun v18 =>
    rbind (required "visits" data) (fun v19 =>
    rbind (required "visits_weekly" data) (fun v20 =>
    Ok (mk_HouseEntry v1 v2 v3 v4 v5 v6 v7 v8 v9 v10 v11 v12 v13 v14 v15
          v16 v17 v18 v19 v20)))))))))))))))))))))
  else Raise TypeError.

(** [dataclasses.asdict(self)]: the attributes in declaration order. *)
Definition dataclass_asdict (e : HouseEntry) : dict value :=
  [ ("id", id e); ("url", url e); ("description", description e);
    ("rooms", rooms e); ("room_configuration", room_configuration e);
    ("price", price e); ("published", published e); ("size", size e);
    ("address", address e); ("district", district e); ("city", city e);
    ("country", country e); ("year", year e);
    ("building_type", building_type e); ("longitude", longitude e);
    ("latitude", latitude e); ("brand_name", brand_name e);
    ("price_changed", price_changed e); ("visits", visits e);
    ("visits_weekly", visits_weekly e) ].

(** The loop of [HouseEntry.asdict]: a [datetime] becomes its formatted
    string, every other value is kept. *)
Definition format_value (v : value) : value :=
  match v with
  | VDatetime d => VStr (Datetime.strftime d)
  | _ => v
  end.

Definition asdict (e : HouseEntry) : dict value :=
  map (fun kv => (fst kv, format_value (snd kv))) (dataclass_asdict e).

End Data.

(* ================================================================= *)
(** ** client.py *)

Module Client.
Import Py Obj.

Definition BASE : string := "https://asunnot.oikotie.fi".

(** *** The provider and the session

    The location search answers with a list of [{'card': {...}}] objects, of
    which the program reads the integers [cardId] and [cardType]; the
    listings endpoint answers with [{'cards': [...], 'found': n}].  The answer
    to a listings request may depend on how many listings requests were
    served before it, so that [found] can change while a query is paged
    through.  Transport failures are left out. *)
Record LocCard : Type := mk_LocCard {
  cardId : Z;
  cardType : Z
}.

Record Page : Type := mk_Page {
  cards : list value;
  found : Z
}.

Record Provider : Type := mk_Provider {
  location_api : string -> list LocCard;
  cards_api : nat -> string -> Page
}.

(** What [self.session.get] is asked for. *)
Inductive Request : Type :=
| GetLocation (query : string)
| GetCards (url : string).

Definition is_cards (r : Request) : bool :=
  match r with
  | GetCards _ => true
  | GetLocation _ => false
  end.

(** A computation that issues requests and may raise: it takes the log of
    the requests issued so far and returns it extended. *)
Definition M (A : Type) : Type := list Request -> result A * list Request.

Definition ret {A} (a : A) : M A := fun log => (Ok a, log).

Definition throw {A} (e : exn) : M A := fun log => (Raise e, log).

Definition bind {A B} (m : M A) (k : A -> M B) : M B :=
  fun log =>
    match m log with
    | (Ok a, log') => k a log'
    | (Raise e, log') => (Raise e, log')
    end.

Definition lift {A} (r : result A) : M A := fun log => (r, log).

Notation "x <- m ;; k" := (bind m (fun x => k))
  (at level 61, m at next level, right associativity).

Definition get_location (P : Provider) (loc : string) : M (list LocCard) :=
  fun log => (Ok (location_api P loc), (log ++ [GetLocation loc])%list).

Definition get_cards (P : Provider) (url : string) : M Page :=
  fun log =>
    (Ok (cards_api P (List.length (filter is_cards log)) url),
     (log ++ [GetCards url])%list).

(** *** [OTClient.location] *)

(** The text appended to [results] for one entry of a lookup's answer. *)
Definition location_info (loc : string) (data : LocCard) : string :=
  let info :=
    drop_last
      (replace_char ch_space EmptyString
         (str_int_list [cardId data; cardType data])) in
  let info :=
    info ++ "," ++ str1 ch_dquote ++ replace_char ch_space "+" loc
         ++ str1 ch_dquote ++ "]" in
  info ++ ",".

Fixpoint location_loop (P : Provider) (locations : list string)
    (results : string) : M string :=
  match locations with
  | [] => ret results
  | loc :: rest =>
      res <- get_location P loc ;;
      location_loop P rest
        (fold_left (fun acc entry => acc ++ location_info loc entry) res results)
  end.

Definition location (P : Provider) (locations : list string) : M string :=
  results <- location_loop P locations "[" ;;
  ret (drop_last results ++ "]").

(** *** [OTClient._params_builder] *)

(** The keyword arguments of [query] with the four entries [query] adds.
    [None] is the default of every filter. *)
Record Params : Type := mk_Params {
  locations : option (list string);
  house_type : option (list string);
  room_count : option (list Z);
  price_min : option Z;
  price_max : option Z;
  size_min : option Z;
  size_max : option Z;
  limit : Z;
  cardType_ : Z;
  offset : Z;
  sortBy : string
}.

Definition param_map : dict string :=
  [ ("house_type", "buildingType[]"); ("room_count", "roomCount[]");
    ("price_min", "price[min]"); ("price_max", "price[max]");
    ("size_min", "size[min]"); ("size_max", "size[max]") ].

Definition house_types : dict (list Z) :=
  [ ("kerrostalo", [1; 256]%Z); ("rivitalo", [2]%Z); ("paritalo", [64]%Z);
    ("omakotitalo", [4; 8; 32; 128]%Z) ].

(** The chained list of [house_types[k]] for [k] in [params['house_type']]:
    iterating [None] is a [TypeError], an unknown name a [KeyError]. *)
Definition expand_house_types (house_type : option (list string))
  : result (list Z) :=
  match house_type with
  | None => Raise TypeError
  | Some ks =>
      rbind
        (rmap (fun k =>
                 match dict_get k house_types with
                 | Some codes => Ok codes
                 | None => Raise (KeyError k)
                 end) ks)
        (fun codes => Ok (List.concat codes))
  end.

(** [self.location] applied to the unpacked [params['locations']]:
    unpacking [None] is a [TypeError]. *)
Definition resolve_locations (P : Provider) (locations : option (list string))
  : M string :=
  match locations with
  | None => throw TypeError
  | Some locs => location P locs
  end.

(** The values the entries of [params] hold when the loop runs. *)
Inductive pval : Type :=
| PNone
| PInt (z : Z)
| PStr (s : string)
| PInts (l : list Z).

Definition of_opt_int (o : option Z) : pval :=
  match o with Some z => PInt z | None => PNone end.

Definition of_opt_ints (o : option (list Z)) : pval :=
  match o with Some l => PInts l | None => PNone end.

Definition pval_truthy (v : pval) : bool :=
  match v with
  | PNone => false
  | PInt z => negb (z =? 0)%Z
  | PStr s => negb (String.eqb s EmptyString)
  | PInts l => negb (Nat.eqb (List.length l) 0)
  end.

(** [params.items()] inside [_params_builder], once [house_type] and
    [locations] have been replaced: the keys come in the order of the
    arguments of [query], then the keys [query] added. *)
Definition params_items (p : Params) (location_token : string)
    (house_codes : list Z) : dict pval :=
  [ ("locations", PStr location_token);
    ("house_type", PInts house_codes);
    ("room_count", of_opt_ints (room_count p));
    ("price_min", of_opt_int (price_min p));
    ("price_max", of_opt_int (price_max p));
    ("size_min", of_opt_int (size_min p));
    ("size_max", of_opt_int (size_max p));
    ("limit", PInt (limit p));
    ("cardType", PInt (cardType_ p));
    ("offset", PInt (offset p));
    ("sortBy", PStr (sortBy p)) ].

(** The [key=value] pairs one entry contributes. *)
Definition emitted (key : string) (value : pval) : list (string * string) :=
  if negb (pval_truthy value) then []
  else
    let key := match dict_get key param_map with
               | Some key' => key'
               | None => key
               end in
    match value with
    | PInts l => map (fun v => (key, str_int v)) l
    | PInt z => [(key, str_int z)]
    | PStr s => [(key, s)]
    | PNone => [(key, "None")]
    end.

Definition emitted_pairs (items : dict pval) : list (string * string) :=
  flat_map (fun kv => emitted (fst kv) (snd kv)) items.

(** The loop over [params.items()] and the final [parameters[:-1]]. *)
Definition encode (items : dict pval) : string :=
  drop_last
    (fold_left
       (fun parameters kv =>
          fold_left
            (fun parameters pair =>
               parameters ++ fst pair ++ "=" ++ snd pair ++ "&")
            (emitted (fst kv) (snd kv)) parameters)
       items "?").

Definition _params_builder (P : Provider) (p : Params) : M string :=
  house_codes <- lift (expand_house_types (house_type p)) ;;
  token <- resolve_locations P (locations p) ;;
  ret (encode (params_items p token house_codes)).

(** *** [OTClient._convert_ts] *)

Definition _convert_ts (ts : value) : result value :=
  if truthy ts then
    match ts with
    | VStr s => rbind (Datetime.strptime s) (fun d => Ok (VDatetime d))
    | _ => Raise TypeError
    end
  else Ok VNone.

(** *** [OTClient._entry_builder] *)

(** [data.update(other)] for the value found under ['buildingData'].  A
    mapping is merged key by key; an empty string or list is an empty
    iterable and changes nothing; a number, a boolean or [None] is not
    iterable.  A non-empty list is answered with [TypeError] whatever its
    elements: the provider sends an object here, and the facts below are
    about entries where the value is an object or missing. *)
Definition update_with (data : dict value) (other : value)
  : result (dict value) :=
  match other with
  | VDict d => Ok (dict_update data d)
  | VStr EmptyString => Ok data
  | VList [] => Ok data
  | VStr _ => Raise ValueError
  | VList _ => Raise TypeError
  | _ => Raise TypeError
  end.

(** The first two statements: the items of [entry] whose key is an
    attribute of [HouseEntry], then everything under ['buildingData']. *)
Definition merged_data (entry : dict value) : result (dict value) :=
  let data := filter (fun kv => str_in (fst kv) Data.fields) entry in
  update_with data (get_default "buildingData" (VDict []) entry).

(** [s.replace('\n', '')] on whatever [data.pop('description', '')] gave. *)
Definition strip_newlines (v : value) : result value :=
  match v with
  | VStr s => Ok (VStr (replace_char ch_newline EmptyString s))
  | _ => Raise AttributeError
  end.

(** [entry.get('brand', {'name': None})['name']]. *)
Definition brand_name_of (entry : dict value) : result value :=
  match get_default "brand" (VDict [("name", VNone)]) entry with
  | VDict d =>
      match dict_get "name" d with
      | Some v => Ok v
      | None => Raise (KeyError "name")
      end
  | _ => Raise TypeError
  end.

(** [coordinates.get(k, None)] for [coordinates = entry.get('coordinates', {})]. *)
Definition coordinate_of (entry : dict value) (k : string) : result value :=
  match get_default "coordinates" (VDict []) entry with
  | VDict d => Ok (get_default k VNone d)
  | _ => Raise AttributeError
  end.

(** The keyword dictionary [_entry_builder] hands to [HouseEntry]. *)
Definition entry_data (entry : dict value) : result (dict value) :=
  rbind (merged_data entry) (fun data =>
  let (desc, data) := dict_pop "description" (VStr EmptyString) data in
  rbind (strip_newlines desc) (fun desc =>
  let data := dict_set "description" desc data in
  let (btype, data) := dict_pop "buildingType" VNone data in
  let data := dict_set "building_type" btype data in
  let data :=
    dict_set "room_configuration"
      (get_default "roomConfiguration" VNone entry) data in
  rbind (brand_name_of entry) (fun brand =>
  let data := dict_set "brand_name" brand data in
  rbind (coordinate_of entry "longitude") (fun lon =>
  let data := dict_set "longitude" lon data in
  rbind (coordinate_of entry "latitude") (fun lat =>
  let data := dict_set "latitude" lat data in
  rbind (_convert_ts (get_default "priceChanged" VNone entry)) (fun pc =>
  let data := dict_set "price_changed" pc data in
  rbind (_convert_ts (get_default "published" VNone entry)) (fun pub =>
  let data := dict_set "published" pub data in
  Ok data))))))).

Definition _entry_builder (entry : value) : result Data.HouseEntry :=
  match entry with
  | VDict e => rbind (entry_data e) Data.init
  | _ => Raise AttributeError
  end.

(** *** [OTClient.query]

    The generator, iterated to completion: the records it yields, the pages
    it received, and the exception that ended it, if any. *)
Record Run : Type := mk_Run {
  yielded : list Data.HouseEntry;
  pages : list Page;
  raised : option exn
}.

(** [params] as [query] builds it from its arguments. *)
Definition query_params (locations house_type : option (list string))
    (room_count : option (list Z))
    (price_min price_max size_min size_max : option Z) (limit : Z) : Params :=
  {| locations := locations; house_type := house_type;
     room_count := room_count; price_min := price_min;
     price_max := price_max; size_min := size_min; size_max := size_max;
     limit := limit; cardType_ := 101; offset := 0;
     sortBy := "published_sort_desc" |}.

Definition set_offset (p : Params) (i : Z) : Params :=
  {| locations := locations p; house_type := house_type p;
     room_count := room_count p; price_min := price_min p;
     price_max := price_max p; size_min := size_min p;
     size_max := size_max p; limit := limit p; cardType_ := cardType_ p;
     offset := i; sortBy := sortBy p |}.

(** The inner [_execute]. *)
Definition _execute (P : Provider) (params : Params) : M Page :=
  suffix <- _params_builder P params ;;
  get_cards P (BASE ++ "/api/cards" ++ suffix).

(** [for entry in data['cards']: yield self._entry_builder(entry)]: the
    records yielded, and the exception if an entry could not be built. *)
Fixpoint yield_cards (entries : list value)
  : list Data.HouseEntry * option exn :=
  match entries with
  | [] => ([], None)
  | entry :: rest =>
      match _entry_builder entry with
      | Raise e => ([], Some e)
      | Ok h => let (hs, r) := yield_cards rest in (h :: hs, r)
      end
  end.

(** The body of [for i in range(limit, n_found, limit)], over the offsets
    that are left. *)
Fixpoint query_loop (P : Provider) (params : Params) (offsets : list Z)
    (log : list Request) : Run * list Request :=
  match offsets with
  | [] => (mk_Run [] [] None, log)
  | i :: rest =>
      let params := set_offset params i in
      match _execute P params log with
      | (Raise e, log) => (mk_Run [] [] (Some e), log)
      | (Ok data, log) =>
          match yield_cards (cards data) with
          | (hs, Some e) => (mk_Run hs [data] (Some e), log)
          | (hs, None) =>
              let (run, log) := query_loop P params rest log in
              (mk_Run (hs ++ yielded run)%list (data :: pages run) (raised run),
               log)
          end
      end
  end.

Definition query (P : Provider) (locations house_type : option (list string))
    (room_count : option (list Z))
    (price_min price_max size_min size_max : option Z) (limit : Z)
    (log : list Request) : Run * list Request :=
  let params :=
    query_params locations house_type room_count price_min price_max
      size_min size_max limit in
  match _execute P params log with
  | (Raise e, log) => (mk_Run [] [] (Some e), log)
  | (Ok data, log) =>
      match yield_cards (cards data) with
      | (hs, Some e) => (mk_Run hs [data] (Some e), log)
      | (hs, None) =>
          let n_found := found data in
          if (n_found >? limit)%Z then
            match range limit n_found limit with
            | Raise e => (mk_Run hs [data] (Some e), log)
            | Ok offsets =>
                let (run, log) := query_loop P params offsets log in
                (mk_Run (hs ++ yielded run)%list (data :: pages run)
                   (raised run), log)
            end
          else (mk_Run hs [data] None, log)
      end
  end.

(** *** Reading a run *)

(** The keys [_entry_builder] pops or assigns after the merge. *)
Definition assigned_keys : list string :=
  [ "description"; "buildingType"; "building_type"; "room_configuration";
    "brand_name"; "longitude"; "latitude"; "price_changed"; "published" ].

(** Every match of every name, in the order of the names and, for one
    name, in the order of the provider's answer. *)
Definition matches (P : Provider) (locs : list string)
  : list (LocCard * string) :=
  flat_map (fun loc => map (fun c => (c, loc)) (location_api P loc)) locs.

(** The token [location] returns for given names. *)
Definition token_of (P : Provider) (locs : list string) : string :=
  drop_last
    ("[" ++ joined (map (fun m => location_info (snd m) (fst m))
                      (matches P locs)))
  ++ "]".

(** The listings requests in a log. *)
Definition cards_requests (log : list Request) : list Request :=
  filter is_cards log.

(** The listings URL for given parameters, once the house types are
    expanded and the locations resolved. *)
Definition page_url (p : Params) (token : string) (codes : list Z) : string :=
  BASE ++ "/api/cards" ++ encode (params_items p token codes).

(** The URL of the listings request at offset [i]. *)
Definition url_at (P : Provider) (p : Params) (names : list string)
    (codes : list Z) (i : Z) : string :=
  page_url (set_offset p i) (token_of P names) codes.


(** [ceil(F / L)] for a positive [L]. *)
Definition ceil_div (F L : Z) : Z := ((F + L - 1) / L)%Z.



End Client.

(* ================================================================= *)
(** ** sheets.py *)

Module Sheets.
Import Py Obj.

(** *** The worksheet

    The rows that hold data, top to bottom; a cell holds the value written
    to it. *)
Definition Row : Type := list value.
Definition Worksheet : Type := list Row.

(** The key a header cell stands for. *)
Definition cell_key (v : value) : string :=
  match v with
  | VStr s => s
  | VInt z => str_int z
  | _ => EmptyString
  end.

(** [sheet.get_all_records()]: the first row gives the keys and every row
    below it one record; a sheet without rows, or with the first row only,
    has no records. *)
Definition get_all_records (sheet : Worksheet) : list (dict value) :=
  match sheet with
  | [] => []
  | head :: rows =>
      map (fun row =>
             fold_left (fun d kv => dict_set (fst kv) (snd kv) d)
               (combine (map cell_key head) row) [])
          rows
  end.

(** [sheet.insert_row(values, index)]: [values] becomes row [index],
    counted from 1, and the rows from there on move down; rows between the
    end of the data and [index] are blank. *)
Definition insert_row (values : Row) (index : nat) (sheet : Worksheet)
  : Worksheet :=
  let above := firstn (index - 1) sheet in
  (above ++ repeat [] (index - 1 - List.length above)
     ++ values :: skipn (index - 1) sheet)%list.

(** *** Sets of hashable values *)

Definition hashable (v : value) : bool :=
  match v with
  | VList _ | VDict _ => false
  | _ => true
  end.

Definition as_number (v : value) : option QArith_base.Q :=
  match v with
  | VBool b => Some (QArith_base.inject_Z (if b then 1 else 0))
  | VInt z => Some (QArith_base.inject_Z z)
  | VFloat q => Some q
  | _ => None
  end.

(** [a == b] on hashable values: numbers compare by value, strings and
    dates with their own kind. *)
Definition py_eqb (a b : value) : bool :=
  match as_number a, as_number b with
  | Some x, Some y => QArith_base.Qeq_bool x y
  | _, _ =>
      match a, b with
      | VNone, VNone => true
      | VStr s, VStr t => String.eqb s t
      | VDatetime d, VDatetime e =>
          Nat.eqb (Datetime.year d) (Datetime.year e)
          && Nat.eqb (Datetime.month d) (Datetime.month e)
          && Nat.eqb (Datetime.day d) (Datetime.day e)
          && Nat.eqb (Datetime.hour d) (Datetime.hour e)
          && Nat.eqb (Datetime.minute d) (Datetime.minute e)
          && Nat.eqb (Datetime.second d) (Datetime.second e)
      | _, _ => false
      end
  end.

(** A set is kept as the list of its elements, each once. *)
Definition pyset : Type := list value.

(** [x in s]; hashing a list or a dictionary is a [TypeError]. *)
Definition set_mem (x : value) (s : pyset) : result bool :=
  if hashable x then Ok (existsb (py_eqb x) s) else Raise TypeError.

(** [s.add(x)]. *)
Definition set_add (x : value) (s : pyset) : result pyset :=
  rbind (set_mem x s) (fun present =>
  Ok (if present then s else (s ++ [x])%list)).

(** *** [SheetWrapper] *)

Record SheetWrapper : Type := mk_SheetWrapper {
  sheet : Worksheet;
  ids : pyset
}.

(** [SheetWrapper.__init__]. *)
Definition init (sheet0 : Worksheet) : result SheetWrapper :=
  let records := get_all_records sheet0 in
  match records with
  | [] =>
      Ok (mk_SheetWrapper (insert_row (map VStr Data.fields) 1 sheet0) [])
  | _ =>
      rbind
        (fold_left
           (fun acc record =>
              rbind acc (fun ids =>
              match dict_get "id" record with
              | Some v => set_add v ids
              | None => Raise (KeyError "id")
              end))
           records (Ok []))
        (fun ids => Ok (mk_SheetWrapper sheet0 ids))
  end.

(** [SheetWrapper.insert]. *)
Definition insert (w : SheetWrapper) (entry : Data.HouseEntry)
  : result SheetWrapper :=
  rbind (set_mem (Data.id entry) (ids w)) (fun present =>
  if negb present then
    rbind (set_add (Data.id entry) (ids w)) (fun ids' =>
    let row := dict_values (Data.asdict entry) in
    Ok (mk_SheetWrapper
          (insert_row row (List.length ids' + 1) (sheet w)) ids'))
  else Ok w).

End Sheets.

(* ================================================================= *)
(** ** Sample data *)

Module Samples.
Import Py Obj.

Definition q_24_9 : QArith_base.Q := QArith_base.Qmake 249 10.
Definition q_60_2 : QArith_base.Q := QArith_base.Qmake 602 10.

(** The raw entry of the specification's scenario. *)
Definition scenario_entry : dict value :=
  [ ("id", VInt 42);
    ("description", VStr ("Nice" ++ str1 ch_newline ++ "flat"));
    ("buildingData", VDict [("year", VInt 1990)]);
    ("coordinates",
       VDict [("longitude", VFloat q_24_9); ("latitude", VFloat q_60_2)]);
    ("published", VStr "2021-05-01T10:00:00Z") ].

(** An entry as the provider sends them, with every attribute of the record
    present at the top level or under [buildingData], and keys the record
    does not have. *)
Definition listing (ident : Z) : dict value :=
  [ ("id", VInt ident);
    ("url", VStr "https://asunnot.oikotie.fi/myytavat-asunnot/helsinki/1");
    ("description", VStr ("Valoisa" ++ str1 ch_newline ++ "kaksio"));
    ("rooms", VInt 2);
    ("roomConfiguration", VStr "2h+kk");
    ("price", VInt 249000);
    ("published", VStr "2021-05-01T10:00:00Z");
    ("size", VInt 45);
    ("cardType", VInt 100);
    ("buildingData",
       VDict [ ("address", VStr "Katu 1"); ("district", VStr "Kallio");
               ("city", VStr "Helsinki"); ("country", VStr "Suomi");
               ("year", VInt 1962); ("buildingType", VInt 1) ]);
    ("coordinates",
       VDict [("latitude", VFloat q_60_2); ("longitude", VFloat q_24_9)]);
    ("brand", VDict [("image", VStr "logo.png"); ("name", VStr "Kodit")]);
    ("priceChanged", VNone);
    ("visits", VInt 416);
    ("visits_weekly", VInt 42) ].

(** The same listing with a key under [buildingData] that is not an
    attribute of the record. *)
Definition listing_with_floor : dict value :=
  dict_set "buildingData"
    (VDict [ ("address", VStr "Katu 1"); ("district", VStr "Kallio");
             ("city", VStr "Helsinki"); ("country", VStr "Suomi");
             ("year", VInt 1962); ("buildingType", VInt 1);
             ("floor", VInt 3) ])
    (listing 7).


(** A provider that knows two places called Kallio and none called
    Nowhere, and answers every listings request with one listing and the
    same total. *)
Definition kallio (loc : string) : list Client.LocCard :=
  if String.eqb loc "Kallio"
  then [Client.mk_LocCard 12 4; Client.mk_LocCard 13 5]
  else [].

Definition provider (total : Z) : Client.Provider :=
  Client.mk_Provider kallio
    (fun n _ => Client.mk_Page [VDict (listing (Z.of_nat n))] total).


(** A record and the header row of a sheet. *)
Definition entry42 : Data.HouseEntry :=
  Data.mk_HouseEntry (VInt 42) (VStr "https://asunnot.oikotie.fi/42")
    (VStr "Kaksio") (VInt 2) (VStr "2h+kk") (VInt 150000)
    (VDatetime (Datetime.mk_datetime 2021 5 1 10 0 0)) (VInt 45)
    (VStr "Katu 1") (VStr "Kallio") (VStr "Helsinki") (VStr "Suomi")
    (VInt 1962) (VInt 1) (VFloat q_24_9) (VFloat q_60_2) (VStr "Kodit")
    VNone (VInt 10) (VInt 1).

Definition header : list value := map VStr Data.fields.

End Samples.

(* ================================================================= *)
(** ** client.py: the session *)

Module Session.
Import Py.

(** The answer of the credentials endpoint, [{'user': {'cuid': ..,
    'time': .., 'token': ..}}]; [time] is an integer. *)
Record User : Type := mk_User {
  cuid : string;
  time : Z;
  token : string
}.

Definition default_user_agent : string :=
  "Mozilla/5.0 (Windows NT 10.0; Win64; x64; rv:74.0) Gecko/20100101 Firefox/74.0".

(** The setter of [headers]: what is stored for the dictionary given. *)
Definition set_headers (data : dict string) : dict string :=
  if dict_mem "User-Agent" data then data
  else dict_set "User-Agent" default_user_agent data.

(** The URL [ota] requests, for the number [random.randint] drew. *)
Definition ota_url (num : Z) : string :=
  Client.BASE ++ "/user/get?format=json&rand=" ++ str_int num.

(** [ota]: the dictionary built from the [user] object of the answer. *)
Definition ota (data : User) : dict string :=
  [ ("OTA-cuid", cuid data); ("OTA-loaded", str_int (time data));
    ("OTA-token", token data) ].

(** [__enter__]: the headers of the session, [self.headers = self.ota]. *)
Definition enter (data : User) : dict string := set_headers (ota data).

End Session.

(* ================================================================= *)
(** ** tasks.py *)

Module Tasks.
Import Py Obj Client.

(** *** [fetch_houses]

    The body of the [with OTClient() as c] block,
    [for entry in c.query(..): redirect(entry)].  The generator is resumed
    only after [redirect] has returned, and is dropped when [redirect]
    raises.  [redirect] acts on a state of the sink; a call that raises
    leaves the state it was given. *)
Section Fetch.
Context {S : Type}.
Variable redirect : Data.HouseEntry -> S -> result S.

(** One page: each card is built and handed over before the next is
    looked at. *)
Fixpoint redirect_cards (entries : list value) (s : S) : S * option exn :=
  match entries with
  | [] => (s, None)
  | entry :: rest =>
      match _entry_builder entry with
      | Raise e => (s, Some e)
      | Ok h =>
          match redirect h s with
          | Raise e => (s, Some e)
          | Ok s' => redirect_cards rest s'
          end
      end
  end.

Fixpoint fetch_loop (P : Provider) (params : Params) (offsets : list Z)
    (s : S) (log : list Request) : (S * option exn) * list Request :=
  match offsets with
  | [] => ((s, None), log)
  | i :: rest =>
      let params := set_offset params i in
      match _execute P params log with
      | (Raise e, log) => ((s, Some e), log)
      | (Ok data, log) =>
          match redirect_cards (cards data) s with
          | (s, Some e) => ((s, Some e), log)
          | (s, None) => fetch_loop P params rest s log
          end
      end
  end.

Definition fetch (P : Provider) (locations house_type : option (list string))
    (room_count : option (list Z))
    (price_min price_max size_min size_max : option Z) (limit : Z)
    (s : S) (log : list Request) : (S * option exn) * list Request :=
  let params :=
    query_params locations house_type room_count price_min price_max
      size_min size_max limit in
  match _execute P params log with
  | (Raise e, log) => ((s, Some e), log)
  | (Ok data, log) =>
      match redirect_cards (cards data) s with
      | (s, Some e) => ((s, Some e), log)
      | (s, None) =>
          if (found data >? limit)%Z then
            match range limit (found data) limit with
            | Raise e => ((s, Some e), log)
            | Ok offsets => fetch_loop P params offsets s log
            end
          else ((s, None), log)
      end
  end.

(** Records handed to [redirect] one after the other, up to the first
    call that raises. *)
Fixpoint feed (hs : list Data.HouseEntry) (s : S) : S * option exn :=
  match hs with
  | [] => (s, None)
  | h :: rest =>
      match redirect h s with
      | Raise e => (s, Some e)
      | Ok s' => feed rest s'
      end
  end.

End Fetch.

(** What happens to the session around the loop. *)
Inductive Event : Type :=
| Opened
| UserGet (url : string)
| Sent (r : Request)
| Closed.

(** [fetch_houses], for the parameters read from the configuration file
    and the number [ota] drew: [__enter__] opens the session and asks for
    the credentials, [__exit__] closes the session whether or not the block
    raised, and the exception goes on to the caller. *)
Definition fetch_houses {S : Type}
    (redirect : Data.HouseEntry -> S -> result S) (P : Provider) (num : Z)
    (locations house_type : option (list string))
    (room_count : option (list Z))
    (price_min price_max size_min size_max : option Z) (limit : Z) (s : S)
  : (S * option exn) * list Event :=
  let (outcome, log) :=
    fetch redirect P locations house_type room_count price_min price_max
      size_min size_max limit s [] in
  (outcome,
   (Opened :: UserGet (Session.ota_url num) :: map Sent log ++ [Closed])%list).

(** *** [schedule]

    The loop as far as [schedule] uses it: the delays, in hours, of the
    callbacks that wait for their timeout.  Every callback the decorator
    adds is the [inner] of the decorated call, so a waiting callback is
    known by its delay alone.  [func] is the decorated function applied to
    its arguments, acting on a state of the world. *)
Record Loop (W : Type) : Type := mk_Loop {
  timeouts : list Z;
  world : W
}.
Arguments mk_Loop {W} timeouts world.
Arguments timeouts {W} l.
Arguments world {W} l.

Section Schedule.
Context {W : Type}.
Variable interval : Z.
Variable func : W -> W * option exn.

(** [wrapper(..)]: [IOLoop.current().add_timeout(dt, inner)]. *)
Definition wrapper (l : Loop W) : Loop W :=
  mk_Loop (timeouts l ++ [interval])%list (world l).

(** [inner()]: [func(..)], then [wrapper(..)] unless [func] raised. *)
Definition inner (l : Loop W) : Loop W * option exn :=
  match func (world l) with
  | (w, Some e) => (mk_Loop (timeouts l) w, Some e)
  | (w, None) => (wrapper (mk_Loop (timeouts l) w), None)
  end.

(** The loop runs the callback that waited longest; what the callback
    raises is logged by the loop and goes no further. *)
Definition fire (l : Loop W) : Loop W :=
  match timeouts l with
  | [] => l
  | _ :: rest => fst (inner (mk_Loop rest (world l)))
  end.

End Schedule.

End Tasks.

(* ================================================================= *)
(** ** Reading the results *)

Module Views.
Import Py Obj.

(** One item of the location token: [[cardId,cardType,"name"]], with the
    spaces of the name turned into [+]. *)
Definition location_item (m : Client.LocCard * string) : string :=
  "[" ++ str_int (Client.cardId (fst m)) ++ ","
      ++ str_int (Client.cardType (fst m)) ++ ","
      ++ str1 ch_dquote ++ replace_char ch_space "+" (snd m)
      ++ str1 ch_dquote ++ "]".

(** The provider's codes of a house-type category; none for a name that
    is not one. *)
Definition codes_of (k : string) : list Z :=
  match dict_get k Client.house_types with
  | Some codes => codes
  | None => []
  end.

(** The parameter of an optional bound: none when unset or zero. *)
Definition bound (key : string) (o : option Z) : list (string * string) :=
  match o with
  | Some z => if (z =? 0)%Z then [] else [(key, str_int z)]
  | None => []
  end.

(** A parameter repeated for each value. *)
Definition repeated (key : string) (zs : list Z) : list (string * string) :=
  map (fun z => (key, str_int z)) zs.

(** [key=value] for a pair of the query string. *)
Definition assignment (pair : string * string) : string :=
  fst pair ++ "=" ++ snd pair.

(** An instant as the record writes it: the year as a decimal number, as
    it is, then the month, the day, the hour, the minute and the second with
    two digits each, around the literals of the format. *)
Definition two_digits (n : nat) : string :=
  if (n <? 10)%nat then "0" ++ str_int (Z.of_nat n) else str_int (Z.of_nat n).

Definition stamp (d : Datetime.datetime) : string :=
  str_int (Z.of_nat (Datetime.year d))
  ++ "-" ++ two_digits (Datetime.month d)
  ++ "-" ++ two_digits (Datetime.day d)
  ++ "T" ++ two_digits (Datetime.hour d)
  ++ ":" ++ two_digits (Datetime.minute d)
  ++ ":" ++ two_digits (Datetime.second d) ++ "Z".

(** The characters of a string. *)
Definition chars (s : string) : list ascii := list_ascii_of_string s.

(** The row [SheetWrapper.insert] writes for a record. *)
Definition row_of (entry : Data.HouseEntry) : Sheets.Row :=
  dict_values (Data.asdict entry).

(** The records whose id was not seen before, in the order they come. *)
Fixpoint fresh (seen : Sheets.pyset) (entries : list Data.HouseEntry)
  : list Data.HouseEntry :=
  match entries with
  | [] => []
  | e :: rest =>
      if existsb (Sheets.py_eqb (Data.id e)) seen then fresh seen rest
      else e :: fresh (seen ++ [Data.id e])%list rest
  end.

(** The body of the loop of [SheetWrapper.__init__], on the set built so
    far or the exception raised so far. *)
Definition load_step (acc : result Sheets.pyset) (record : dict value)
  : result Sheets.pyset :=
  rbind acc (fun ids =>
  match dict_get "id" record with
  | Some v => Sheets.set_add v ids
  | None => Raise (KeyError "id")
  end).

(** The record [get_all_records] reads from a row under a given first
    row. *)
Definition record_of (head row : Sheets.Row) : dict value :=
  fold_left (fun d kv => dict_set (fst kv) (snd kv) d)
    (combine (map Sheets.cell_key head) row) [].

(** The exception that ends a loop fed by a generator: the sink's, if the
    sink raised, and otherwise the generator's. *)
Definition ended {S : Type} (fed : S * option exn) (r : option exn)
  : option exn :=
  match snd fed with
  | Some e => Some e
  | None => r
  end.

(** The sink [main] passes to [fetch_houses]: [s.insert]. *)
Definition sink (entry : Data.HouseEntry) (w : Sheets.SheetWrapper)
  : result Sheets.SheetWrapper :=
  Sheets.insert w entry.

(** A record whose id is an integer, as the dataclass annotates it. *)
Definition int_id (entry : Data.HouseEntry) : bool :=
  match Data.id entry with
  | VInt _ => true
  | _ => false
  end.

End Views.

(* ================================================================= *)
(** ** Facts about the Python fragment *)

Module PyFacts.
Import Py.

Lemma append_nil_r (s : string) : s ++ EmptyString = s.
Proof. induction s as [|a s IH]; [reflexivity|]. cbn. now rewrite IH. Qed.

Lemma append_assoc (s t u : string) : (s ++ t) ++ u = s ++ (t ++ u).
Proof. induction s as [|a s IH]; [reflexivity|]. cbn. now rewrite IH. Qed.

Lemma joined_app (xs ys : list string) :
  joined (xs ++ ys)%list = joined xs ++ joined ys.
Proof.
  induction xs as [|x xs IH]; [reflexivity|].
  cbn [joined fold_right app]. fold (joined (xs ++ ys)%list). fold (joined xs).
  now rewrite IH, append_assoc.
Qed.

Lemma fold_left_append {A} (f : A -> string) (l : list A) (r : string) :
  fold_left (fun acc e => acc ++ f e) l r = r ++ joined (map f l).
Proof.
  revert r. induction l as [|x l IH]; intros r.
  - cbn. now rewrite append_nil_r.
  - cbn [fold_left map joined fold_right]. rewrite IH.
    now rewrite append_assoc.
Qed.

(** *** Dictionaries *)

Section DictFacts.
Context {V : Type}.
Implicit Types (d other : dict V) (k : string).

Lemma dict_get_set k k' (v : V) d :
  dict_get k (dict_set k' v d)
  = if String.eqb k' k then Some v else dict_get k d.
Proof.
  induction d as [|[a b] d IH]; [reflexivity|].
  cbn [dict_set dict_get].
  destruct (String.eqb_spec a k') as [->|Hak']; cbn [dict_get].
  - now destruct (String.eqb k' k).
  - rewrite IH. destruct (String.eqb_spec a k) as [->|Hak]; [|reflexivity].
    apply String.eqb_neq in Hak'. rewrite String.eqb_sym in Hak'.
    now rewrite Hak'.
Qed.

Lemma dict_get_remove_other k k' d :
  String.eqb k' k = false ->
  dict_get k (dict_remove k' d) = dict_get k d.
Proof.
  intros Hk. induction d as [|[a b] d IH]; [reflexivity|].
  cbn [dict_remove dict_get].
  destruct (String.eqb_spec a k') as [->|Hak']; cbn [dict_get].
  - now rewrite Hk.
  - now rewrite IH.
Qed.

Lemma dict_get_pop_other k k' (default : V) d :
  String.eqb k' k = false ->
  dict_get k (snd (dict_pop k' default d)) = dict_get k d.
Proof.
  intros Hk. unfold dict_pop.
  destruct (dict_get k' d); cbn [snd]; [|reflexivity].
  now apply dict_get_remove_other.
Qed.

Lemma dict_get_absent k d : ~ In k (dict_keys d) -> dict_get k d = None.
Proof.
  induction d as [|[a b] d IH]; [reflexivity|].
  cbn [dict_keys map fst In dict_get]. intros H.
  destruct (String.eqb_spec a k) as [->|_]; [exfalso; now apply H; left|].
  apply IH. intros Hin. apply H. now right.
Qed.

Lemma dict_get_present k d (v : V) :
  dict_get k d = Some v -> In k (dict_keys d).
Proof.
  induction d as [|[a b] d IH]; [discriminate|].
  cbn [dict_get dict_keys map fst In].
  destruct (String.eqb_spec a k) as [->|_]; [now left|].
  intros H. right. now apply IH.
Qed.

Lemma dict_get_update k d other :
  NoDup (dict_keys other) ->
  dict_get k (dict_update d other)
  = match dict_get k other with
    | Some v => Some v
    | None => dict_get k d
    end.
Proof.
  unfold dict_update. revert d.
  induction other as [|[a b] other IH]; intros d Hnd; [reflexivity|].
  cbn [dict_keys map fst] in Hnd. inversion Hnd as [|? ? Hnotin Hnd']; subst.
  cbn [fold_left fst snd dict_get]. rewrite (IH _ Hnd'), dict_get_set.
  destruct (String.eqb_spec a k) as [->|_]; [|reflexivity].
  now rewrite (dict_get_absent k other Hnotin).
Qed.

Lemma dict_get_filter (keep : string -> bool) k d :
  dict_get k (filter (fun kv => keep (fst kv)) d)
  = if keep k then dict_get k d else None.
Proof.
  induction d as [|[a b] d IH]; [now destruct (keep k)|].
  cbn [filter fst dict_get].
  destruct (String.eqb_spec a k) as [->|Hak].
  - destruct (keep k) eqn:Ek; cbn [dict_get].
    + now rewrite String.eqb_refl.
    + rewrite IH. now rewrite ?Ek.
  - destruct (keep a); cbn [dict_get]; [|exact IH].
    apply String.eqb_neq in Hak. now rewrite Hak.
Qed.
End DictFacts.

Lemma dict_get_map_values {V W : Type} (f : V -> W) (k : string)
    (d : dict V) :
  dict_get k (map (fun kv => (fst kv, f (snd kv))) d)
  = option_map f (dict_get k d).
Proof.
  induction d as [|[a b] d IH]; [reflexivity|].
  cbn [map fst snd dict_get]. now destruct (String.eqb a k).
Qed.

Lemma drop_last_snoc (s : string) (c : ascii) :
  drop_last (s ++ String c EmptyString) = s.
Proof.
  induction s as [|a s IH]; [reflexivity|].
  cbn [append drop_last]. rewrite IH.
  destruct s; reflexivity.
Qed.

Lemma drop_last_app_snoc (s t : string) (c : ascii) :
  drop_last (s ++ t ++ String c EmptyString) = s ++ t.
Proof. now rewrite <- append_assoc, drop_last_snoc. Qed.

Lemma replace_char_app (c : ascii) (by_ s t : string) :
  replace_char c by_ (s ++ t)
  = replace_char c by_ s ++ replace_char c by_ t.
Proof.
  induction s as [|a s IH]; [reflexivity|].
  cbn [append replace_char]. rewrite IH.
  destruct (Ascii.eqb a c); [now rewrite append_assoc|reflexivity].
Qed.

Lemma str_int_no_space (z : Z) :
  replace_char ch_space EmptyString (str_int z) = str_int z.
Proof.
  assert (U : forall d,
             replace_char ch_space EmptyString (NilEmpty.string_of_uint d)
             = NilEmpty.string_of_uint d).
  { induction d; cbn [NilEmpty.string_of_uint replace_char]; trivial;
      cbn; now rewrite IHd. }
  assert (N : forall d,
             replace_char ch_space EmptyString (NilZero.string_of_uint d)
             = NilZero.string_of_uint d).
  { intros d. destruct d; try apply U. reflexivity. }
  unfold str_int. destruct (Z.to_int z) as [d|d];
    cbn [NilZero.string_of_int]; [apply N|].
  cbn [replace_char]. cbn. now rewrite N.
Qed.

Lemma joined_separated {A} (f : A -> string) (sep : string) (x : A)
    (xs : list A) :
  joined (map (fun a => f a ++ sep) (x :: xs))
  = join sep (map f (x :: xs)) ++ sep.
Proof.
  revert x. induction xs as [|y xs IH]; intros x.
  - cbn. now rewrite append_nil_r.
  - cbn [map joined fold_right] in IH |- *.
    change (join sep (f x :: f y :: map f xs))
      with (f x ++ sep ++ join sep (f y :: map f xs)).
    rewrite (IH y). now rewrite !append_assoc.
Qed.

Lemma str_in_false (k : string) (ks : list string) :
  str_in k ks = false -> forall x, In x ks -> String.eqb x k = false.
Proof.
  unfold str_in. induction ks as [|a ks IH]; intros H x Hin; [destruct Hin|].
  cbn [existsb] in H. apply orb_false_iff in H. destruct H as [Ha Hks].
  destruct Hin as [<-|Hin]; [now rewrite String.eqb_sym|]. now apply IH.
Qed.

End PyFacts.

(* ================================================================= *)
(** ** The timestamp format: parsing and formatting *)

Module DatetimeFacts.
Import Py Datetime.
Local Open Scope nat_scope.

Lemma is_digit_char (n : nat) : n < 10 -> is_digit (digit_char n) = true.
Proof. intros H. do 10 (destruct n as [|n]; [reflexivity|]). lia. Qed.

Lemma digit_val_char (n : nat) : n < 10 -> digit_val (digit_char n) = n.
Proof. intros H. do 10 (destruct n as [|n]; [reflexivity|]). lia. Qed.

Lemma digit_char_val (c : ascii) :
  is_digit c = true -> digit_char (digit_val c) = c /\ digit_val c < 10.
Proof.
  destruct c as [b0 b1 b2 b3 b4 b5 b6 b7].
  destruct b0, b1, b2, b3, b4, b5, b6, b7; cbv; intros H;
    try discriminate H; split; try reflexivity; repeat constructor.
Qed.

Lemma digit_not_space (c : ascii) :
  is_digit c = true -> Ascii.eqb c ch_space = false.
Proof.
  destruct c as [b0 b1 b2 b3 b4 b5 b6 b7].
  destruct b0, b1, b2, b3, b4, b5, b6, b7; cbv; intros H;
    try discriminate H; reflexivity.
Qed.

Lemma span_digits_digit (c : ascii) (r : string) :
  is_digit c = true ->
  span_digits (String c r)
  = (digit_val c :: fst (span_digits r), snd (span_digits r)).
Proof.
  intros H. cbn [span_digits]. rewrite H. now destruct (span_digits r).
Qed.

Lemma span_digits_other (c : ascii) (r : string) :
  is_digit c = false -> span_digits (String c r) = ([], String c r).
Proof. intros H. cbn [span_digits]. now rewrite H. Qed.

Lemma span_two (a b sep : ascii) (r : string) :
  is_digit a = true -> is_digit b = true -> is_digit sep = false ->
  span_digits (String a (String b (String sep r)))
  = ([digit_val a; digit_val b], String sep r).
Proof.
  intros Ha Hb Hs.
  rewrite (span_digits_digit a), (span_digits_digit b),
    (span_digits_other sep); auto.
Qed.

Lemma read_field_two (lo hi : nat) (a b sep : ascii) (r : string) :
  is_digit a = true -> is_digit b = true -> is_digit sep = false ->
  lo <= two a b <= hi ->
  read_field lo hi (String a (String b (String sep r)))
  = Some (two a b, String sep r).
Proof.
  intros Ha Hb Hs [Hlo Hhi]. unfold read_field.
  rewrite span_two by assumption. unfold in_field. fold (two a b).
  apply Nat.leb_le in Hlo, Hhi. now rewrite Hlo, Hhi.
Qed.

Lemma read_day_two (a b sep : ascii) (r : string) :
  is_digit a = true -> is_digit b = true -> is_digit sep = false ->
  1 <= two a b <= 31 ->
  read_day (String a (String b (String sep r)))
  = Some (two a b, String sep r).
Proof.
  intros Ha Hb Hs Hr. unfold read_day.
  rewrite (digit_not_space a Ha). cbn [andb].
  now apply read_field_two.
Qed.

Lemma read_year_four (a b c d sep : ascii) (r : string) :
  is_digit a = true -> is_digit b = true -> is_digit c = true ->
  is_digit d = true -> is_digit sep = false ->
  read_year (String a (String b (String c (String d (String sep r)))))
  = Some (1000 * digit_val a + 100 * digit_val b + 10 * digit_val c
          + digit_val d, String sep r).
Proof.
  intros Ha Hb Hc Hd Hs. unfold read_year.
  rewrite (span_digits_digit a), (span_digits_digit b) by assumption.
  now rewrite span_two by assumption.
Qed.

Lemma read_lit_same (c : ascii) (r : string) :
  read_lit c (String c r) = Some r.
Proof. unfold read_lit. now rewrite Ascii.eqb_refl. Qed.

Lemma days_in_month_bound (y m : nat) : days_in_month y m <= 31.
Proof.
  unfold days_in_month.
  do 12 (destruct m as [|m]; [try destruct (is_leap y); lia|]). lia.
Qed.

Lemma match_format_layout
    (y1 y2 y3 y4 m1 m2 d1 d2 h1 h2 n1 n2 c1 c2 : ascii) :
  forallb is_digit [y1; y2; y3; y4; m1; m2; d1; d2; h1; h2; n1; n2; c1; c2]
  = true ->
  1 <= two m1 m2 <= 12 -> 1 <= two d1 d2 <= 31 ->
  two h1 h2 <= 23 -> two n1 n2 <= 59 -> two c1 c2 <= 61 ->
  match_format (layout y1 y2 y3 y4 m1 m2 d1 d2 h1 h2 n1 n2 c1 c2)
  = Some (mk_datetime
            (1000 * digit_val y1 + 100 * digit_val y2 + 10 * digit_val y3
             + digit_val y4)
            (two m1 m2) (two d1 d2) (two h1 h2) (two n1 n2) (two c1 c2),
          EmptyString).
Proof.
  intros Hd Hm Hday Hh Hn Hc.
  cbn [forallb] in Hd.
  repeat (apply andb_true_iff in Hd; destruct Hd as [? Hd]).
  unfold layout, match_format.
  rewrite read_year_four by (assumption || reflexivity). cbn [obind].
  rewrite read_lit_same. cbn [obind].
  rewrite read_field_two by (assumption || reflexivity). cbn [obind].
  rewrite read_lit_same. cbn [obind].
  rewrite read_day_two by (assumption || reflexivity). cbn [obind].
  rewrite read_lit_same. cbn [obind].
  rewrite read_field_two by (assumption || reflexivity || lia). cbn [obind].
  rewrite read_lit_same. cbn [obind].
  rewrite read_field_two by (assumption || reflexivity || lia). cbn [obind].
  rewrite read_lit_same. cbn [obind].
  rewrite read_field_two by (assumption || reflexivity || lia). cbn [obind].
  rewrite read_lit_same. reflexivity.
Qed.

Lemma valid_ts_layout (s : string) :
  valid_ts s = true ->
  exists y1 y2 y3 y4 m1 m2 d1 d2 h1 h2 n1 n2 c1 c2,
    s = layout y1 y2 y3 y4 m1 m2 d1 d2 h1 h2 n1 n2 c1 c2
    /\ forallb is_digit
         [y1; y2; y3; y4; m1; m2; d1; d2; h1; h2; n1; n2; c1; c2] = true
    /\ valid (mk_datetime
                (1000 * digit_val y1 + 100 * digit_val y2 + 10 * digit_val y3
                 + digit_val y4)
                (two m1 m2) (two d1 d2) (two h1 h2) (two n1 n2) (two c1 c2))
       = true.
Proof.
  intros H.
  do 20 (destruct s as [|? s]; [discriminate H|]).
  destruct s; [|discriminate H].
  unfold valid_ts in H.
  do 14 (apply andb_true_iff in H; destruct H as [H ?]).
  repeat match goal with
         | E : Ascii.eqb _ _ = true |- _ => apply Ascii.eqb_eq in E; subst
         end.
  do 14 eexists. split; [reflexivity|]. split; [exact H|].
  assert (Hd := H). cbn [forallb] in Hd.
  repeat (apply andb_true_iff in Hd; destruct Hd as [?D Hd]).
  repeat match goal with
         | E : is_digit _ = true |- _ => apply digit_char_val in E; destruct E as [_ E]
         end.
  unfold valid. cbn [year month day hour minute second].
  repeat (apply andb_true_iff; split); try assumption.
  apply Nat.leb_le. lia.
Qed.

Lemma pad2_two (a b : ascii) :
  is_digit a = true -> is_digit b = true ->
  pad2 (two a b) = String a (String b EmptyString).
Proof.
  intros Ha Hb.
  destruct (digit_char_val a Ha) as [Ea La].
  destruct (digit_char_val b Hb) as [Eb Lb].
  unfold pad2, two.
  replace ((10 * digit_val a + digit_val b) / 10) with (digit_val a)
    by (apply Nat.div_unique with (r := digit_val b); lia).
  replace ((10 * digit_val a + digit_val b) mod 10) with (digit_val b)
    by (apply Nat.mod_unique with (q := digit_val a); lia).
  now rewrite Ea, Eb.
Qed.

Lemma holds_from_spec (f : Z -> bool) (z : Z) (n : nat) :
  holds_from f z n = true ->
  forall k, k < n -> f (z + Z.of_nat k)%Z = true.
Proof.
  revert z. induction n as [|n IH]; intros z H k Hk; [lia|].
  cbn [holds_from] in H. apply andb_true_iff in H. destruct H as [H0 H1].
  destruct k as [|k].
  - cbn [Z.of_nat]. now rewrite Z.add_0_r.
  - replace (z + Z.of_nat (S k))%Z with (z + 1 + Z.of_nat k)%Z by lia.
    apply IH; [exact H1 | lia].
Qed.

Lemma four_digits_all : holds_from four_digits 1000 (9 * 1000) = true.
Proof. vm_compute. reflexivity. Qed.

Lemma short_digits_all : holds_from short_digits 0 1000 = true.
Proof. vm_compute. reflexivity. Qed.

(** From 1000 to 9999 the year is written with its four digits. *)
Lemma year_text_four (a b c d : nat) :
  1 <= a -> a < 10 -> b < 10 -> c < 10 -> d < 10 ->
  year_text (1000 * a + 100 * b + 10 * c + d)
  = String (digit_char a)
      (String (digit_char b)
         (String (digit_char c) (String (digit_char d) EmptyString))).
Proof.
  intros Ha1 Ha Hb Hc Hd.
  set (y := 1000 * a + 100 * b + 10 * c + d).
  assert (Hy : 1000 <= y /\ y < 10 * 1000) by (unfold y; lia).
  pose proof (holds_from_spec _ _ _ four_digits_all (y - 1000)) as H.
  replace (1000 + Z.of_nat (y - 1000))%Z with (Z.of_nat y) in H by lia.
  assert (H' : four_digits (Z.of_nat y) = true) by (apply H; lia).
  clear H. unfold four_digits in H'. apply String.eqb_eq in H'.
  unfold year_text. rewrite H'. unfold thousands.
  set (z := Z.of_nat y).
  assert (Ez : (z = 1000 * Z.of_nat a + 100 * Z.of_nat b + 10 * Z.of_nat c
                    + Z.of_nat d)%Z) by (unfold z, y; lia).
  assert (E1 : (z / 1000 = Z.of_nat a)%Z).
  { symmetry.
    apply Z.div_unique
      with (r := (100 * Z.of_nat b + 10 * Z.of_nat c + Z.of_nat d)%Z); lia. }
  assert (E2 : (z / 100 = 10 * Z.of_nat a + Z.of_nat b)%Z).
  { symmetry.
    apply Z.div_unique with (r := (10 * Z.of_nat c + Z.of_nat d)%Z); lia. }
  assert (E3 : (z / 10 = 100 * Z.of_nat a + 10 * Z.of_nat b + Z.of_nat c)%Z).
  { symmetry. apply Z.div_unique with (r := Z.of_nat d); lia. }
  assert (M2 : (z / 100 mod 10 = Z.of_nat b)%Z).
  { rewrite E2. symmetry. apply Z.mod_unique with (q := Z.of_nat a); lia. }
  assert (M3 : (z / 10 mod 10 = Z.of_nat c)%Z).
  { rewrite E3. symmetry.
    apply Z.mod_unique with (q := (10 * Z.of_nat a + Z.of_nat b)%Z); lia. }
  assert (M4 : (z mod 10 = Z.of_nat d)%Z).
  { symmetry.
    apply Z.mod_unique
      with (q := (100 * Z.of_nat a + 10 * Z.of_nat b + Z.of_nat c)%Z); lia. }
  rewrite E1, M2, M3, M4, !Nat2Z.id. reflexivity.
Qed.

(** Below 1000 it is written with at most three. *)
Lemma year_text_short (y : nat) :
  y < 1000 ->
  exists l, year_text y = string_of_list_ascii l
            /\ forallb is_digit l = true /\ List.length l <= 3.
Proof.
  intros Hy.
  pose proof (holds_from_spec _ _ _ short_digits_all y Hy) as H.
  rewrite Z.add_0_l in H. unfold short_digits in H.
  apply andb_true_iff in H. destruct H as [Hd Hl]. apply Nat.leb_le in Hl.
  exists (list_ascii_of_string (year_text y)).
  split; [now rewrite string_of_list_ascii_of_string|]. now split.
Qed.

Lemma span_digits_list (l : list ascii) (sep : ascii) (r : string) :
  forallb is_digit l = true -> is_digit sep = false ->
  span_digits (string_of_list_ascii l ++ String sep r)
  = (map digit_val l, String sep r).
Proof.
  intros Hl Hs. induction l as [|c l IH].
  - cbn [string_of_list_ascii append map]. now apply span_digits_other.
  - cbn [forallb] in Hl. apply andb_true_iff in Hl. destruct Hl as [Hc Hl].
    cbn [string_of_list_ascii append map].
    rewrite span_digits_digit by exact Hc. now rewrite (IH Hl).
Qed.

Lemma strftime_layout
    (y1 y2 y3 y4 m1 m2 d1 d2 h1 h2 n1 n2 c1 c2 : ascii) :
  forallb is_digit [y1; y2; y3; y4; m1; m2; d1; d2; h1; h2; n1; n2; c1; c2]
  = true ->
  1 <= digit_val y1 ->
  strftime
    (mk_datetime
       (1000 * digit_val y1 + 100 * digit_val y2 + 10 * digit_val y3
        + digit_val y4)
       (two m1 m2) (two d1 d2) (two h1 h2) (two n1 n2) (two c1 c2))
  = layout y1 y2 y3 y4 m1 m2 d1 d2 h1 h2 n1 n2 c1 c2.
Proof.
  intros Hd Hy. cbn [forallb] in Hd.
  repeat (apply andb_true_iff in Hd; destruct Hd as [? Hd]).
  unfold strftime. cbn [year month day hour minute second].
  destruct (digit_char_val y1) as [E1 L1]; [assumption|].
  destruct (digit_char_val y2) as [E2 L2]; [assumption|].
  destruct (digit_char_val y3) as [E3 L3]; [assumption|].
  destruct (digit_char_val y4) as [E4 L4]; [assumption|].
  rewrite year_text_four by assumption. rewrite E1, E2, E3, E4.
  rewrite !pad2_two by assumption.
  reflexivity.
Qed.

(** The digits [strftime] writes for a date the constructor accepts, from
    the year 1000 on. *)
Lemma strftime_is_layout (d : datetime) :
  valid d = true -> 1000 <= year d ->
  exists y1 y2 y3 y4 m1 m2 d1 d2 h1 h2 n1 n2 c1 c2,
    strftime d = layout y1 y2 y3 y4 m1 m2 d1 d2 h1 h2 n1 n2 c1 c2
    /\ forallb is_digit
         [y1; y2; y3; y4; m1; m2; d1; d2; h1; h2; n1; n2; c1; c2] = true
    /\ d = mk_datetime
             (1000 * digit_val y1 + 100 * digit_val y2 + 10 * digit_val y3
              + digit_val y4)
             (two m1 m2) (two d1 d2) (two h1 h2) (two n1 n2) (two c1 c2).
Proof.
  destruct d as [y m dd h mi se]. unfold valid.
  cbn [year month day hour minute second]. intros H Hy.
  do 8 (apply andb_true_iff in H; destruct H as [H ?]).
  repeat match goal with
         | E : (_ <=? _) = true |- _ => apply Nat.leb_le in E
         end.
  pose proof (days_in_month_bound y m) as Hdim.
  exists (digit_char (y / 1000)), (digit_char (y / 100 mod 10)),
    (digit_char (y / 10 mod 10)), (digit_char (y mod 10)),
    (digit_char (m / 10)), (digit_char (m mod 10)),
    (digit_char (dd / 10)), (digit_char (dd mod 10)),
    (digit_char (h / 10)), (digit_char (h mod 10)),
    (digit_char (mi / 10)), (digit_char (mi mod 10)),
    (digit_char (se / 10)), (digit_char (se mod 10)).
  assert (B : forall n, n mod 10 < 10) by (intros; apply Nat.mod_upper_bound; lia).
  assert (D : forall n, n <= 99 -> n / 10 < 10)
    by (intros n Hn; apply Nat.Div0.div_lt_upper_bound; lia).
  assert (Y : y / 1000 < 10) by (apply Nat.Div0.div_lt_upper_bound; lia).
  assert (Ey : y = 1000 * (y / 1000) + 100 * (y / 100 mod 10)
                   + 10 * (y / 10 mod 10) + y mod 10).
  { pose proof (Nat.div_mod_eq y 10) as E1.
    pose proof (Nat.div_mod_eq (y / 10) 10) as E2.
    pose proof (Nat.div_mod_eq (y / 100) 10) as E3.
    assert (E4 : y / 10 / 10 = y / 100)
      by (rewrite Nat.Div0.div_div; reflexivity).
    assert (E5 : y / 100 / 10 = y / 1000)
      by (rewrite Nat.Div0.div_div; reflexivity).
    lia. }
  assert (Y1 : 1 <= y / 1000) by (apply Nat.div_le_lower_bound; lia).
  split; [|split].
  - unfold strftime, layout. cbn [year month day hour minute second].
    etransitivity;
      [apply (f_equal (fun n => year_text n ++ _) Ey)|].
    rewrite year_text_four by auto. reflexivity.
  - cbn [forallb]. rewrite !is_digit_char by (auto; apply D; lia).
    reflexivity.
  - unfold two. rewrite !digit_val_char by (auto; apply D; lia).
    assert (T : forall n, 10 * (n / 10) + n mod 10 = n)
      by (intros n; symmetry; apply Nat.div_mod_eq).
    rewrite !T. f_equal. exact Ey.
Qed.

Lemma strptime_layout
    (y1 y2 y3 y4 m1 m2 d1 d2 h1 h2 n1 n2 c1 c2 : ascii) :
  let d := mk_datetime
             (1000 * digit_val y1 + 100 * digit_val y2 + 10 * digit_val y3
              + digit_val y4)
             (two m1 m2) (two d1 d2) (two h1 h2) (two n1 n2) (two c1 c2) in
  forallb is_digit [y1; y2; y3; y4; m1; m2; d1; d2; h1; h2; n1; n2; c1; c2]
  = true ->
  valid d = true ->
  strptime (layout y1 y2 y3 y4 m1 m2 d1 d2 h1 h2 n1 n2 c1 c2) = Ok d.
Proof.
  intros d Hdig Hval. unfold strptime.
  assert (H := Hval). unfold valid, d in H.
  cbn [year month day hour minute second] in H.
  do 8 (apply andb_true_iff in H; destruct H as [H ?]).
  repeat match goal with
         | E : (_ <=? _) = true |- _ => apply Nat.leb_le in E
         end.
  pose proof (days_in_month_bound (year d) (two m1 m2)) as Hdim.
  unfold d in Hdim. cbn [year] in Hdim.
  rewrite match_format_layout by (assumption || lia).
  fold d. now rewrite Hval.
Qed.

(** A string of the strict form is parsed, and the instant has the year
    its four digits spell. *)
Lemma strptime_strict (s : string) :
  valid_ts s = true ->
  exists d, strptime s = Ok d /\ valid d = true
            /\ (1000 <= year d -> strftime d = s).
Proof.
  intros Hs.
  destruct (valid_ts_layout s Hs)
    as (y1 & y2 & y3 & y4 & m1 & m2 & d1 & d2 & h1 & h2 & n1 & n2 & c1 & c2
        & -> & Hdig & Hval).
  eexists. split; [now apply strptime_layout|]. split; [exact Hval|].
  cbn [year]. intros Hy. apply strftime_layout; [exact Hdig|].
  assert (Hd := Hdig). cbn [forallb] in Hd.
  repeat (apply andb_true_iff in Hd; destruct Hd as [?D Hd]).
  repeat match goal with
         | E : is_digit _ = true |- _ =>
             apply digit_char_val in E; destruct E as [_ E]
         end.
  lia.
Qed.

Lemma strptime_strftime (d : datetime) :
  valid d = true -> 1000 <= year d -> strptime (strftime d) = Ok d.
Proof.
  intros Hd Hy.
  destruct (strftime_is_layout d Hd Hy)
    as (y1 & y2 & y3 & y4 & m1 & m2 & d1 & d2 & h1 & h2 & n1 & n2 & c1 & c2
        & E & Hdig & Ed).
  rewrite E. clear E. subst d. now apply strptime_layout.
Qed.

(** Before the year 1000 the string [strftime] writes is not parsed:
    [%Y] wants four digits. *)
Lemma strptime_strftime_early (d : datetime) :
  year d < 1000 -> strptime (strftime d) = Raise ValueError.
Proof.
  intros Hy.
  destruct (year_text_short (year d) Hy) as (l & El & Hl & Hn).
  unfold strptime, match_format, strftime. rewrite El.
  change ("-" ++ ?r) with (String "-"%char r).
  unfold read_year.
  match goal with
  | |- context [span_digits (string_of_list_ascii l ++ String ?c ?r)] =>
      rewrite (span_digits_list l c r Hl eq_refl)
  end.
  destruct l as [|a [|b [|c [|e l]]]]; try reflexivity.
  cbn [List.length] in Hn. lia.
Qed.

Lemma valid_ts_strptime (s : string) :
  valid_ts s = true -> exists d, strptime s = Ok d.
Proof.
  intros Hs. destruct (strptime_strict s Hs) as (d & H & _). now exists d.
Qed.

Lemma valid_ts_strftime (d : datetime) :
  valid d = true -> 1000 <= year d -> valid_ts (strftime d) = true.
Proof.
  intros Hd Hy.
  destruct (strftime_is_layout d Hd Hy)
    as (y1 & y2 & y3 & y4 & m1 & m2 & d1 & d2 & h1 & h2 & n1 & n2 & c1 & c2
        & E & Hdig & Ed).
  rewrite E. subst d. unfold valid in Hd.
  cbn [year month day hour minute second] in Hd.
  do 8 (apply andb_true_iff in Hd; destruct Hd as [Hd ?]).
  unfold layout, valid_ts.
  rewrite Hdig. rewrite !Ascii.eqb_refl. cbn [andb].
  repeat (apply andb_true_iff; split); assumption.
Qed.

Lemma valid_ts_strftime_early (d : datetime) :
  year d < 1000 -> valid_ts (strftime d) = false.
Proof.
  intros Hy. destruct (valid_ts (strftime d)) eqn:E; [|reflexivity].
  destruct (valid_ts_strptime _ E) as (d' & H).
  rewrite strptime_strftime_early in H by exact Hy. discriminate H.
Qed.

Lemma pad2_two_digits (n : nat) : n < 60 -> pad2 n = Views.two_digits n.
Proof.
  intros H. do 60 (destruct n as [|n]; [reflexivity|]). lia.
Qed.

(** The string [strftime] writes for a date the constructor accepts. *)
Lemma strftime_stamp (d : datetime) :
  valid d = true -> strftime d = Views.stamp d.
Proof.
  destruct d as [y m dd h mi se]. unfold valid.
  cbn [year month day hour minute second]. intros H.
  do 8 (apply andb_true_iff in H; destruct H as [H ?]).
  repeat match goal with
         | E : (_ <=? _) = true |- _ => apply Nat.leb_le in E
         end.
  pose proof (days_in_month_bound y m) as Hdim.
  unfold strftime, Views.stamp, year_text.
  cbn [year month day hour minute second].
  rewrite !pad2_two_digits by lia. reflexivity.
Qed.

Lemma strftime_not_empty (d : datetime) :
  String.eqb (strftime d) EmptyString = false.
Proof.
  unfold strftime. destruct (year_text (year d)); reflexivity.
Qed.

End DatetimeFacts.

(* ================================================================= *)
(** ** The client *)

Module ClientFacts.
Import Py Obj Client.

Lemma convert_ts_string (s : string) :
  String.eqb s EmptyString = false ->
  _convert_ts (VStr s)
  = rbind (Datetime.strptime s) (fun d => Ok (VDatetime d)).
Proof. intros H. unfold _convert_ts. cbn [truthy]. now rewrite H. Qed.

(** *** [location] *)

Lemma location_loop_spec (P : Provider) (locs : list string)
    (results : string) (log : list Request) :
  location_loop P locs results log
  = (Ok (results
         ++ joined (map (fun m => location_info (snd m) (fst m))
                      (matches P locs))),
     (log ++ map GetLocation locs)%list).
Proof.
  revert results log. induction locs as [|loc rest IH]; intros results log.
  - cbn. now rewrite PyFacts.append_nil_r, app_nil_r.
  - cbn [location_loop]. unfold bind at 1. unfold get_location.
    rewrite IH. rewrite PyFacts.fold_left_append.
    unfold matches. cbn [flat_map map]. fold (matches P rest).
    rewrite map_app, map_map, PyFacts.joined_app. cbn [snd fst].
    rewrite PyFacts.append_assoc, <- app_assoc. reflexivity.
Qed.

Lemma location_spec (P : Provider) (locs : list string) (log : list Request) :
  location P locs log
  = (Ok (drop_last
           ("[" ++ joined (map (fun m => location_info (snd m) (fst m))
                             (matches P locs)))
         ++ "]"),
     (log ++ map GetLocation locs)%list).
Proof.
  unfold location, bind. rewrite location_loop_spec. reflexivity.
Qed.

Lemma matches_app (P : Provider) (l1 l2 : list string) :
  matches P (l1 ++ l2) = (matches P l1 ++ matches P l2)%list.
Proof. unfold matches. apply flat_map_app. Qed.

(** The text [location] adds for a match is its item and a comma. *)
Lemma location_info_item (loc : string) (c : LocCard) :
  location_info loc c = Views.location_item (c, loc) ++ ",".
Proof.
  unfold location_info, Views.location_item, str_int_list.
  cbn [fst snd map join].
  rewrite !PyFacts.replace_char_app, !PyFacts.str_int_no_space.
  change (replace_char ch_space EmptyString "[") with "[".
  change (replace_char ch_space EmptyString ", ") with ",".
  change (replace_char ch_space EmptyString "]") with "]".
  rewrite PyFacts.drop_last_app_snoc.
  rewrite !PyFacts.append_assoc. reflexivity.
Qed.

Lemma token_of_items (P : Provider) (locs : list string) :
  token_of P locs
  = match map Views.location_item (matches P locs) with
    | [] => "]"
    | items => "[" ++ join "," items ++ "]"
    end.
Proof.
  unfold token_of.
  destruct (matches P locs) as [|m ms]; [reflexivity|].
  rewrite (map_ext _ (fun m => Views.location_item m ++ ","))
    by (intros [c loc]; apply location_info_item).
  rewrite PyFacts.joined_separated.
  now rewrite PyFacts.drop_last_app_snoc.
Qed.

Lemma items_of_matches {A} (f : LocCard * string -> A) (P : Provider)
    (locs : list string) :
  flat_map (fun name => map (fun c => f (c, name)) (location_api P name)) locs
  = map f (matches P locs).
Proof.
  unfold matches. induction locs as [|loc rest IH]; [reflexivity|].
  cbn [flat_map]. now rewrite map_app, map_map, IH.
Qed.

(** C9. The token is the bracketed, comma-separated list of the items
    [[cardId,cardType,"name"]], one for every match the provider returned,
    the names in the order they were given and the matches of a name in the
    order of the answer, nothing removed; one lookup is made per name; and a
    name without a match leaves the token as it is without that name. *)
Theorem location_token (P : Provider) (locs : list string)
    (log : list Request) :
  let items :=
    flat_map
      (fun name =>
         map (fun c => Views.location_item (c, name)) (location_api P name))
      locs in
  location P locs log
  = (Ok (match items with
         | [] => "]"
         | _ => "[" ++ join "," items ++ "]"
         end),
     (log ++ map GetLocation locs)%list)
  /\ (forall before name after,
        locs = (before ++ name :: after)%list ->
        location_api P name = [] ->
        fst (location P locs log) = fst (location P (before ++ after) log)).
Proof.
  intros items. split.
  - rewrite location_spec. fold (token_of P locs). rewrite token_of_items.
    unfold items. rewrite items_of_matches.
    now destruct (map Views.location_item (matches P locs)).
  - intros before name after -> Hnone.
    rewrite !location_spec. cbn [fst].
    rewrite !matches_app.
    change (name :: after) with ([name] ++ after)%list.
    rewrite matches_app. unfold matches at 2. cbn [flat_map].
    rewrite Hnone. reflexivity.
Qed.

Lemma location_token_witness :
  let q := str1 ch_dquote in
  location (Samples.provider 10) ["Kallio"; "Nowhere"; "Kallio"] []
  = (Ok ("[[12,4," ++ q ++ "Kallio" ++ q ++ "],[13,5," ++ q ++ "Kallio" ++ q
         ++ "],[12,4," ++ q ++ "Kallio" ++ q ++ "],[13,5," ++ q ++ "Kallio"
         ++ q ++ "]]"),
     [GetLocation "Kallio"; GetLocation "Nowhere"; GetLocation "Kallio"])
  /\ fst (location (Samples.provider 10) ["Kallio"; "Nowhere"; "Kallio"] [])
     = fst (location (Samples.provider 10) ["Kallio"; "Kallio"] []).
Proof.
  split.
  - exact (proj1 (location_token (Samples.provider 10)
                    ["Kallio"; "Nowhere"; "Kallio"] [])).
  - apply (proj2 (location_token (Samples.provider 10)
                    ["Kallio"; "Nowhere"; "Kallio"] [])
             ["Kallio"] "Nowhere" ["Kallio"]); reflexivity.
Defined.

(** *** [_params_builder] *)

Lemma house_types_unknown (k : string) :
  ~ In k ["kerrostalo"; "rivitalo"; "paritalo"; "omakotitalo"] <->
  dict_get k house_types = None.
Proof.
  unfold house_types. cbn [dict_get In].
  destruct (String.eqb_spec "kerrostalo" k);
    [split; [intros H; exfalso; apply H; auto | discriminate]|].
  destruct (String.eqb_spec "rivitalo" k);
    [split; [intros H; exfalso; apply H; auto | discriminate]|].
  destruct (String.eqb_spec "paritalo" k);
    [split; [intros H; exfalso; apply H; auto | discriminate]|].
  destruct (String.eqb_spec "omakotitalo" k);
    [split; [intros H; exfalso; apply H; auto 6 | discriminate]|].
  split; [reflexivity|]. intros _ H. intuition.
Qed.

Lemma expand_unknown (ks : list string) :
  (exists k, In k ks /\ dict_get k house_types = None) ->
  exists k, In k ks /\ dict_get k house_types = None
            /\ expand_house_types (Some ks) = Raise (KeyError k).
Proof.
  unfold expand_house_types.
  induction ks as [|x ks IH]; intros (k & Hin & Hk); [destruct Hin|].
  cbn [rmap]. destruct (dict_get x house_types) as [codes|] eqn:Ex.
  - destruct Hin as [->|Hin]; [congruence|].
    destruct IH as (k' & Hin' & Hk' & E); [now exists k|].
    exists k'. split; [now right|]. split; [exact Hk'|].
    cbn [rbind].
    destruct (rmap _ ks) as [cs|e]; cbn [rbind] in E |- *; congruence.
  - exists x. split; [now left|]. split; [exact Ex|]. reflexivity.
Qed.

(** C4. A house-type list with a name outside the four categories makes
    [_params_builder] raise the [KeyError] of such a name, which is how the
    program reports an invalid filter; the query ends with that exception,
    nothing is yielded and the request log is as it was before. *)
Theorem unknown_house_type (P : Provider) (locs : option (list string))
    (house : list string) (rooms : option (list Z))
    (pmin pmax smin smax : option Z) (lim : Z) (log : list Request) :
  (exists k, In k house
             /\ ~ In k ["kerrostalo"; "rivitalo"; "paritalo"; "omakotitalo"]) ->
  exists k,
    In k house
    /\ ~ In k ["kerrostalo"; "rivitalo"; "paritalo"; "omakotitalo"]
    /\ _params_builder P
         (query_params locs (Some house) rooms pmin pmax smin smax lim) log
       = (Raise (KeyError k), log)
    /\ query P locs (Some house) rooms pmin pmax smin smax lim log
       = (mk_Run [] [] (Some (KeyError k)), log).
Proof.
  intros (k0 & Hin0 & Hk0).
  destruct (expand_unknown house) as (k & Hin & Hk & E).
  { exists k0. split; [exact Hin0|]. now apply house_types_unknown. }
  exists k. split; [exact Hin|]. split; [now apply house_types_unknown|].
  assert (B : _params_builder P
                (query_params locs (Some house) rooms pmin pmax smin smax lim)
                log = (Raise (KeyError k), log)).
  { unfold _params_builder, bind, lift. cbn [house_type query_params].
    now rewrite E. }
  split; [exact B|].
  unfold query, _execute, bind at 1. now rewrite B.
Qed.

Lemma unknown_house_type_witness :
  exists k,
    In k ["rivitalo"; "linna"]
    /\ ~ In k ["kerrostalo"; "rivitalo"; "paritalo"; "omakotitalo"]
    /\ _params_builder (Samples.provider 10)
         (query_params (Some ["Kallio"]) (Some ["rivitalo"; "linna"]) None
            None None None None 50) []
       = (Raise (KeyError k), [])
    /\ query (Samples.provider 10) (Some ["Kallio"])
         (Some ["rivitalo"; "linna"]) None None None None None 50 []
       = (mk_Run [] [] (Some (KeyError k)), []).
Proof.
  apply (unknown_house_type (Samples.provider 10) (Some ["Kallio"])
           ["rivitalo"; "linna"] None None None None None 50 []).
  exists "linna". split; [right; left; reflexivity|].
  cbn [In]. intros [H|[H|[H|[H|[]]]]]; discriminate H.
Defined.

Lemma encode_pairs (items : dict pval) :
  encode items
  = drop_last
      ("?" ++ joined (map (fun pair => fst pair ++ "=" ++ snd pair ++ "&")
                        (emitted_pairs items))).
Proof.
  unfold encode. f_equal. generalize "?" as acc.
  induction items as [|kv items IH]; intros acc.
  - cbn. now rewrite PyFacts.append_nil_r.
  - cbn [fold_left]. rewrite IH, PyFacts.fold_left_append.
    unfold emitted_pairs. cbn [flat_map].
    now rewrite map_app, PyFacts.joined_app, PyFacts.append_assoc.
Qed.


Lemma encode_text (items : dict pval) (pair : string * string)
    (pairs : list (string * string)) :
  emitted_pairs items = pair :: pairs ->
  encode items = "?" ++ join "&" (map Views.assignment (pair :: pairs)).
Proof.
  intros E. rewrite encode_pairs, E.
  rewrite (map_ext _ (fun pr => Views.assignment pr ++ "&"))
    by (intros pr; unfold Views.assignment;
        now rewrite !PyFacts.append_assoc).
  rewrite PyFacts.joined_separated. now rewrite PyFacts.drop_last_app_snoc.
Qed.



(** *** [_entry_builder] *)

(** After a case analysis on a step of a computation known to return: the
    case of an exception is closed, the other one goes on. *)
Ltac next_step H := first [discriminate H | cbn [rbind] in H].

(** What is left of [entry_data] once its steps are known to succeed. *)
Lemma entry_data_steps (entry data : dict value) :
  entry_data entry = Ok data ->
  exists merged desc brand lon lat pc pub,
    merged_data entry = Ok merged
    /\ strip_newlines (fst (dict_pop "description" (VStr EmptyString) merged))
       = Ok desc
    /\ brand_name_of entry = Ok brand
    /\ coordinate_of entry "longitude" = Ok lon
    /\ coordinate_of entry "latitude" = Ok lat
    /\ _convert_ts (get_default "priceChanged" VNone entry) = Ok pc
    /\ _convert_ts (get_default "published" VNone entry) = Ok pub
    /\ data
       = dict_set "published" pub
           (dict_set "price_changed" pc
              (dict_set "latitude" lat
                 (dict_set "longitude" lon
                    (dict_set "brand_name" brand
                       (dict_set "room_configuration"
                          (get_default "roomConfiguration" VNone entry)
                          (let popped :=
                             dict_pop "buildingType" VNone
                               (dict_set "description" desc
                                  (snd (dict_pop "description"
                                          (VStr EmptyString) merged))) in
                           dict_set "building_type" (fst popped)
                             (snd popped))))))).
Proof.
  unfold entry_data. intros H.
  destruct (merged_data entry) as [merged|]; next_step H.
  destruct (dict_pop "description" (VStr EmptyString) merged)
    as [desc0 d1] eqn:E1.
  destruct (strip_newlines desc0) as [desc|] eqn:Ed; next_step H.
  destruct (dict_pop "buildingType" VNone (dict_set "description" desc d1))
    as [bt d2] eqn:E2.
  destruct (brand_name_of entry) as [brand|]; next_step H.
  destruct (coordinate_of entry "longitude") as [lon|]; next_step H.
  destruct (coordinate_of entry "latitude") as [lat|]; next_step H.
  destruct (_convert_ts (get_default "priceChanged" VNone entry)) as [pc|];
    next_step H.
  destruct (_convert_ts (get_default "published" VNone entry)) as [pub|];
    next_step H.
  injection H as <-.
  exists merged, desc, brand, lon, lat, pc, pub.
  rewrite E1. cbn [fst snd]. rewrite E2. cbn [fst snd].
  repeat (split; [reflexivity || assumption|]). reflexivity.
Qed.

(** The keywords [_entry_builder] assigns last. *)
Lemma entry_data_assigned (entry data : dict value) :
  entry_data entry = Ok data ->
  exists brand lon lat pc pub,
    brand_name_of entry = Ok brand
    /\ coordinate_of entry "longitude" = Ok lon
    /\ coordinate_of entry "latitude" = Ok lat
    /\ _convert_ts (get_default "priceChanged" VNone entry) = Ok pc
    /\ _convert_ts (get_default "published" VNone entry) = Ok pub
    /\ dict_get "brand_name" data = Some brand
    /\ dict_get "longitude" data = Some lon
    /\ dict_get "latitude" data = Some lat
    /\ dict_get "price_changed" data = Some pc
    /\ dict_get "published" data = Some pub.
Proof.
  intros H.
  destruct (entry_data_steps entry data H)
    as (merged & desc & brand & lon & lat & pc & pub
        & _ & _ & Hb & Hlo & Hla & Hpc & Hpub & ->).
  exists brand, lon, lat, pc, pub.
  repeat (split; [assumption|]).
  repeat split; rewrite !PyFacts.dict_get_set; reflexivity.
Qed.

(** The keywords [_entry_builder] does not touch after the merge. *)
Lemma entry_data_untouched (entry data merged : dict value) (k : string) :
  entry_data entry = Ok data ->
  merged_data entry = Ok merged ->
  str_in k assigned_keys = false ->
  dict_get k data = dict_get k merged.
Proof.
  intros H Hm Hk.
  destruct (entry_data_steps entry data H)
    as (merged' & desc & brand & lon & lat & pc & pub
        & Hm' & _ & _ & _ & _ & _ & _ & ->).
  rewrite Hm in Hm'. injection Hm' as <-.
  pose proof (PyFacts.str_in_false k assigned_keys Hk) as N.
  unfold assigned_keys in N. cbn [In] in N.
  cbv zeta.
  rewrite !PyFacts.dict_get_set.
  rewrite !N by auto 12.
  rewrite PyFacts.dict_get_pop_other by (apply N; auto 12).
  rewrite PyFacts.dict_get_set.
  rewrite !N by auto 12.
  apply PyFacts.dict_get_pop_other. apply N; auto 12.
Qed.

Lemma merged_data_lookup (entry bd : dict value) (k : string) :
  get_default "buildingData" (VDict []) entry = VDict bd ->
  NoDup (dict_keys bd) ->
  exists merged,
    merged_data entry = Ok merged
    /\ dict_get k merged
       = match dict_get k bd with
         | Some v => Some v
         | None => if str_in k Data.fields then dict_get k entry else None
         end.
Proof.
  intros Hbd Hnd. unfold merged_data. rewrite Hbd. cbn [update_with].
  eexists. split; [reflexivity|].
  rewrite PyFacts.dict_get_update by exact Hnd.
  now rewrite (PyFacts.dict_get_filter (fun key => str_in key Data.fields)).
Qed.


(** C5, as stated: no record comes out of the scenario's entry. *)
Lemma scenario_record_not_built :
  ~ (exists h, _entry_builder (VDict Samples.scenario_entry) = Ok h).
Proof. intros [h H]. discriminate H. Qed.

(** C5, as the program has it.  The scenario's entry gives the keywords
    id 42, description Niceflat, year 1990, longitude 24.9, latitude 60.2,
    published 2021-05-01 10:00:00, and [None] for the building type, the
    room configuration, the brand name and the price change; ten attributes
    get no keyword, the dataclass has no default for them, and the
    construction of the record raises [TypeError]. *)
Theorem scenario_keywords :
  exists data,
    entry_data Samples.scenario_entry = Ok data
    /\ dict_get "id" data = Some (VInt 42)
    /\ dict_get "description" data = Some (VStr "Niceflat")
    /\ dict_get "year" data = Some (VInt 1990)
    /\ dict_get "longitude" data = Some (VFloat Samples.q_24_9)
    /\ dict_get "latitude" data = Some (VFloat Samples.q_60_2)
    /\ dict_get "published" data
       = Some (VDatetime (Datetime.mk_datetime 2021 5 1 10 0 0))
    /\ dict_get "building_type" data = Some VNone
    /\ dict_get "room_configuration" data = Some VNone
    /\ dict_get "brand_name" data = Some VNone
    /\ dict_get "price_changed" data = Some VNone
    /\ filter (fun k => negb (dict_mem k data)) Data.fields
       = [ "url"; "rooms"; "price"; "size"; "address"; "district"; "city";
           "country"; "visits"; "visits_weekly" ]
    /\ Data.init data = Raise TypeError
    /\ _entry_builder (VDict Samples.scenario_entry) = Raise TypeError.
Proof.
  eexists. split; [reflexivity|]. repeat split; reflexivity.
Qed.

(** C6, as stated: a key under [buildingData] that is not an attribute of
    the record is merged all the same, and the record is then refused. *)
Lemma building_data_not_filtered :
  str_in "floor" Data.fields = false
  /\ (exists merged,
        merged_data Samples.listing_with_floor = Ok merged
        /\ dict_get "floor" merged = Some (VInt 3))
  /\ (exists data,
        entry_data Samples.listing_with_floor = Ok data
        /\ dict_get "floor" data = Some (VInt 3))
  /\ _entry_builder (VDict Samples.listing_with_floor) = Raise TypeError.
Proof.
  split; [reflexivity|]. split; [|split].
  - eexists. split; reflexivity.
  - eexists. split; reflexivity.
  - reflexivity.
Qed.

(** C6, as the program has it.  For a key that [_entry_builder] does not
    assign afterwards, the keyword handed to the record is the value under
    [buildingData] whenever there is one, whatever the key, and otherwise the
    top-level value provided the key is an attribute of the record; and a
    key under [buildingData] that is not an attribute makes the record
    refuse its keywords. *)
Theorem entry_builder_merge (entry bd data : dict value) (k : string) :
  get_default "buildingData" (VDict []) entry = VDict bd ->
  NoDup (dict_keys bd) ->
  entry_data entry = Ok data ->
  str_in k assigned_keys = false ->
  dict_get k data
  = match dict_get k bd with
    | Some v => Some v
    | None => if str_in k Data.fields then dict_get k entry else None
    end
  /\ (dict_mem k bd = true -> str_in k Data.fields = false ->
      _entry_builder (VDict entry) = Raise TypeError).
Proof.
  intros Hbd Hnd Hdata Hk.
  assert (L : dict_get k data
              = match dict_get k bd with
                | Some v => Some v
                | None =>
                    if str_in k Data.fields then dict_get k entry else None
                end).
  { destruct (merged_data_lookup entry bd k Hbd Hnd) as (merged & Hm & <-).
    now apply entry_data_untouched with (entry := entry). }
  split; [exact L|].
  intros Hmem Hfield. unfold dict_mem in Hmem.
  destruct (dict_get k bd) as [v|]; [|discriminate Hmem].
  apply PyFacts.dict_get_present in L.
  cbn [_entry_builder]. rewrite Hdata. cbn [rbind]. unfold Data.init.
  destruct (forallb (fun key => str_in key Data.fields) (dict_keys data))
    eqn:Hall; [|reflexivity].
  rewrite forallb_forall in Hall. specialize (Hall k L). congruence.
Qed.

Lemma entry_builder_merge_witness :
  exists data,
    entry_data Samples.listing_with_floor = Ok data
    /\ dict_get "floor" data = Some (VInt 3).
Proof.
  eexists. split; [reflexivity|].
  refine (proj1 (entry_builder_merge Samples.listing_with_floor
                   [ ("address", VStr "Katu 1"); ("district", VStr "Kallio");
                     ("city", VStr "Helsinki"); ("country", VStr "Suomi");
                     ("year", VInt 1962); ("buildingType", VInt 1);
                     ("floor", VInt 3) ] _ "floor" _ _ _ _));
    try reflexivity.
  repeat constructor; cbn; intuition discriminate.
Defined.



(** *** [query] *)

Lemma cards_requests_locations (log : list Request) (names : list string) :
  cards_requests (log ++ map GetLocation names) = cards_requests log.
Proof.
  unfold cards_requests. rewrite filter_app.
  replace (filter is_cards (map GetLocation names)) with (@nil Request);
    [apply app_nil_r|].
  induction names as [|x names IH]; [reflexivity|exact IH].
Qed.

(** One execution of [_execute] that returns. *)
Lemma execute_ok (P : Provider) (p : Params) (log log' : list Request)
    (data : Page) :
  _execute P p log = (Ok data, log') ->
  exists codes names,
    expand_house_types (house_type p) = Ok codes
    /\ locations p = Some names
    /\ data = cards_api P (List.length (cards_requests log))
                (page_url p (token_of P names) codes)
    /\ cards_requests log'
       = (cards_requests log
          ++ [GetCards (page_url p (token_of P names) codes)])%list.
Proof.
  unfold _execute, _params_builder, bind, lift. intros H.
  destruct (expand_house_types (house_type p)) as [codes|];
    [|discriminate H].
  unfold resolve_locations in H.
  destruct (locations p) as [names|]; [|discriminate H].
  rewrite location_spec in H. unfold ret, get_cards in H.
  injection H as <- <-.
  exists codes, names. repeat split.
  - fold (cards_requests (log ++ map GetLocation names)).
    now rewrite cards_requests_locations.
  - unfold cards_requests at 1. rewrite filter_app.
    fold (cards_requests (log ++ map GetLocation names)).
    now rewrite cards_requests_locations.
Qed.

Lemma yield_cards_app (xs ys : list value) (hs : list Data.HouseEntry) :
  yield_cards xs = (hs, None) ->
  yield_cards (xs ++ ys)
  = ((hs ++ fst (yield_cards ys))%list, snd (yield_cards ys)).
Proof.
  revert hs. induction xs as [|x xs IH]; intros hs H.
  - injection H as <-. cbn. now destruct (yield_cards ys).
  - cbn [yield_cards app] in H |- *.
    destruct (_entry_builder x) as [h|]; [|discriminate H].
    destruct (yield_cards xs) as [hs' r] eqn:E.
    injection H as <- ->.
    rewrite (IH hs' eq_refl). reflexivity.
Qed.

Lemma yield_cards_length (xs : list value) (hs : list Data.HouseEntry) :
  yield_cards xs = (hs, None) -> List.length hs = List.length xs.
Proof.
  revert hs. induction xs as [|x xs IH]; intros hs H.
  - now injection H as <-.
  - cbn [yield_cards] in H.
    destruct (_entry_builder x) as [h|]; [|discriminate H].
    destruct (yield_cards xs) as [hs' r] eqn:E.
    injection H as <- ->. cbn. now rewrite (IH hs' eq_refl).
Qed.

Lemma range_items_succ (start step : Z) (m : nat) :
  range_items start step (S m)
  = start :: range_items (start + step) step m.
Proof.
  unfold range_items. cbn [seq map]. f_equal; [lia|].
  rewrite <- seq_shift, map_map. apply map_ext. intros k.
  rewrite Nat2Z.inj_succ. ring.
Qed.

Lemma set_offset_twice (p : Params) (i j : Z) :
  set_offset (set_offset p i) j = set_offset p j.
Proof. reflexivity. Qed.

(** The loop over the offsets, when it runs to its end. *)
Lemma query_loop_complete (P : Provider) (names : list string)
    (codes : list Z) (step : Z) (m : nat) :
  forall (p : Params) (start : Z) (log log' : list Request) (run : Run),
    expand_house_types (house_type p) = Ok codes ->
    locations p = Some names ->
    query_loop P p (range_items start step m) log = (run, log') ->
    raised run = None ->
    pages run
    = map (fun k =>
             cards_api P (List.length (cards_requests log) + k)
               (url_at P p names codes (start + Z.of_nat k * step)))
        (seq 0 m)
    /\ cards_requests log'
       = (cards_requests log
          ++ map (fun k =>
                    GetCards
                      (url_at P p names codes (start + Z.of_nat k * step)))
               (seq 0 m))%list
    /\ yield_cards (List.concat (map cards (pages run)))
       = (yielded run, None).
Proof.
  induction m as [|m IH]; intros p start log log' run Hc Hn Hrun Hnone.
  - cbn in Hrun. injection Hrun as <- <-. cbn.
    now rewrite app_nil_r.
  - rewrite range_items_succ in Hrun. cbn [query_loop] in Hrun.
    destruct (_execute P (set_offset p start) log) as [[data|e] log1] eqn:E;
      [|injection Hrun as <- <-; discriminate Hnone].
    destruct (execute_ok _ _ _ _ _ E) as (codes' & names' & Hc' & Hn' & Hd & Hl).
    cbn [house_type locations set_offset] in Hc', Hn'.
    rewrite Hc in Hc'. injection Hc' as <-.
    rewrite Hn in Hn'. injection Hn' as <-.
    destruct (yield_cards (cards data)) as [hs [e|]] eqn:Y;
      [injection Hrun as <- <-; discriminate Hnone|].
    destruct (query_loop P (set_offset p start)
                (range_items (start + step) step m) log1)
      as [run1 log2] eqn:R.
    injection Hrun as <- <-. cbn [raised pages yielded] in Hnone |- *.
    destruct (IH (set_offset p start) (start + step)%Z log1 log2 run1
                Hc Hn R Hnone) as (Hp & Hr & Hy).
    assert (U : forall k : nat,
               url_at P (set_offset p start) names codes
                 (start + step + Z.of_nat k * step)
               = url_at P p names codes (start + Z.of_nat (S k) * step)).
    { intros k. unfold url_at. rewrite set_offset_twice.
      do 2 f_equal. rewrite Nat2Z.inj_succ. ring. }
    assert (L1 : List.length (cards_requests log1)
                 = S (List.length (cards_requests log)))
      by (rewrite Hl, length_app; cbn; lia).
    assert (Z0 : (start + Z.of_nat 0 * step)%Z = start) by (cbn; lia).
    split; [|split].
    + cbn [seq map]. rewrite Z0, Nat.add_0_r. f_equal; [exact Hd|].
      rewrite Hp, <- seq_shift, map_map. apply map_ext. intros k.
      rewrite L1, U. f_equal. lia.
    + rewrite Hr, Hl, <- app_assoc. f_equal. cbn [seq map app].
      rewrite Z0. f_equal.
      rewrite <- seq_shift, map_map. apply map_ext. intros k.
      now rewrite U.
    + cbn [map List.concat]. rewrite (yield_cards_app _ _ hs Y).
      now rewrite Hy.
Qed.

Lemma map_seq_succ {A} (f : nat -> A) (m : nat) :
  map f (seq 0 (S m)) = f 0 :: map (fun k => f (S k)) (seq 0 m).
Proof. cbn [seq map]. now rewrite <- seq_shift, map_map. Qed.

(** The number of pages, from the total of the first one. *)
Lemma pages_count (F L : Z) :
  (0 < L)%Z ->
  (if (F >? L)%Z then S (Z.to_nat (range_len L F L)) else 1)
  = Z.to_nat (Z.max 1 (ceil_div F L)).
Proof.
  intros HL. unfold range_len, ceil_div.
  destruct (Z.gtb_spec F L) as [Hgt|Hle].
  - destruct (Z.ltb_spec 0 L) as [_|?]; [|lia].
    destruct (Z.ltb_spec L F) as [_|?]; [|lia].
    replace (F + L - 1)%Z with (F - L - 1 + 2 * L)%Z by ring.
    rewrite Z.div_add by lia.
    pose proof (Z.div_pos (F - L - 1) L ltac:(lia) HL) as Hq.
    rewrite Z.max_r by lia.
    rewrite <- Z2Nat.inj_succ by lia. f_equal. lia.
  - assert (Hq : ((F + L - 1) / L < 2)%Z)
      by (apply Z.div_lt_upper_bound; lia).
    rewrite Z.max_l by lia. reflexivity.
Qed.


(** A query that runs to its end: the requests it issued, the pages it
    received for them and the records it yielded. *)
Lemma query_complete (P : Provider) (locs house : option (list string))
    (rooms : option (list Z)) (pmin pmax smin smax : option Z) (lim : Z)
    (log log' : list Request) (run : Run) :
  (0 < lim)%Z ->
  query P locs house rooms pmin pmax smin smax lim log = (run, log') ->
  raised run = None ->
  let p := query_params locs house rooms pmin pmax smin smax lim in
  exists codes names first,
    expand_house_types house = Ok codes
    /\ locs = Some names
    /\ first = cards_api P (List.length (cards_requests log))
                 (url_at P p names codes 0)
    /\ pages run
       = map (fun k =>
                cards_api P (List.length (cards_requests log) + k)
                  (url_at P p names codes (Z.of_nat k * lim)))
           (seq 0 (Z.to_nat (Z.max 1 (ceil_div (found first) lim))))
    /\ cards_requests log'
       = (cards_requests log
          ++ map (fun k =>
                    GetCards (url_at P p names codes (Z.of_nat k * lim)))
               (seq 0 (Z.to_nat (Z.max 1 (ceil_div (found first) lim)))))%list
    /\ yield_cards (List.concat (map cards (pages run)))
       = (yielded run, None).
Proof.
  intros HL Hrun Hnone p. unfold query in Hrun. fold p in Hrun.
  destruct (_execute P p log) as [[data|e] log1] eqn:E;
    [|injection Hrun as <- <-; discriminate Hnone].
  destruct (execute_ok _ _ _ _ _ E) as (codes & names & Hc & Hn & Hd & Hl).
  cbn [house_type locations p query_params] in Hc, Hn.
  exists codes, names, data.
  change (page_url p (token_of P names) codes)
    with (url_at P p names codes 0) in Hd, Hl.
  split; [exact Hc|]. split; [exact Hn|]. split; [exact Hd|].
  rewrite <- (pages_count (found data) lim HL).
  destruct (yield_cards (cards data)) as [hs [e|]] eqn:Y;
    [injection Hrun as <- <-; discriminate Hnone|].
  destruct (Z.gtb_spec (found data) lim) as [Hgt|Hle].
  - unfold range in Hrun.
    destruct (Z.eqb_spec lim 0) as [?|_]; [lia|].
    destruct (query_loop P p
                (range_items lim lim (Z.to_nat (range_len lim (found data) lim)))
                log1) as [run1 log2] eqn:R.
    injection Hrun as <- <-. cbn [raised pages yielded] in Hnone |- *.
    destruct (query_loop_complete P names codes lim _ p lim log1 log2 run1
                Hc Hn R Hnone) as (Hp & Hr & Hy).
    assert (L1 : List.length (cards_requests log1)
                 = S (List.length (cards_requests log)))
      by (rewrite Hl, length_app; cbn; lia).
    assert (U : forall k : nat,
               (lim + Z.of_nat k * lim)%Z = (Z.of_nat (S k) * lim)%Z)
      by (intros k; rewrite Nat2Z.inj_succ; ring).
    rewrite !map_seq_succ. change (Z.of_nat 0 * lim)%Z with 0%Z.
    split; [|split].
    + rewrite Nat.add_0_r, <- Hd. f_equal. rewrite Hp.
      apply map_ext. intros k. rewrite L1, U. f_equal. lia.
    + rewrite Hr, Hl, <- app_assoc. cbn [app]. do 2 f_equal.
      apply map_ext. intros k. now rewrite U.
    + cbn [map List.concat]. rewrite (yield_cards_app _ _ hs Y).
      now rewrite Hy.
  - injection Hrun as <- <-. cbn [pages yielded seq map List.concat].
    change (Z.of_nat 0 * lim)%Z with 0%Z.
    rewrite Nat.add_0_r, <- Hd, app_nil_r.
    repeat split; assumption.
Qed.

(** C1, as stated: with a total of 0 the first page is requested all the
    same, one request where [ceil (0 / 50)] is 0. *)
Lemma empty_total_one_request :
  let result :=
    query (Samples.provider 0) (Some []) (Some []) (Some []) None None None
      None 50 [] in
  raised (fst result) = None
  /\ map found (pages (fst result)) = [0%Z]
  /\ List.length (cards_requests (snd result)) = 1
  /\ Z.to_nat (ceil_div 0 50) = 0.
Proof. repeat split; reflexivity. Qed.

(** C1, as the program has it.  With a positive page size [lim] and a
    provider that reports the total [F] on every page, a query that runs to
    its end issues [max 1 (ceil (F / lim))] listings requests, the [k]-th at
    offset [k * lim]; the pages are the provider's answers to them, and the
    records yielded are those of the cards of these pages, page after page
    and in the order of each page, as many as the pages have cards. *)
Theorem stable_total_pages (P : Provider) (locs house : option (list string))
    (rooms : option (list Z)) (pmin pmax smin smax : option Z) (lim F : Z)
    (log log' : list Request) (run : Run) :
  (0 < lim)%Z ->
  (forall n url, found (cards_api P n url) = F) ->
  query P locs house rooms pmin pmax smin smax lim log = (run, log') ->
  raised run = None ->
  let p := query_params locs house rooms pmin pmax smin smax lim in
  let n := Z.to_nat (Z.max 1 (ceil_div F lim)) in
  exists codes names,
    expand_house_types house = Ok codes
    /\ locs = Some names
    /\ cards_requests log'
       = (cards_requests log
          ++ map (fun k =>
                    GetCards (url_at P p names codes (Z.of_nat k * lim)))
               (seq 0 n))%list
    /\ pages run
       = map (fun k =>
                cards_api P (List.length (cards_requests log) + k)
                  (url_at P p names codes (Z.of_nat k * lim)))
           (seq 0 n)
    /\ List.length (pages run) = n
    /\ yield_cards (List.concat (map cards (pages run))) = (yielded run, None)
    /\ List.length (yielded run)
       = list_sum (map (fun page => List.length (cards page)) (pages run)).
Proof.
  intros HL Hstable Hrun Hnone p n.
  destruct (query_complete P locs house rooms pmin pmax smin smax lim
              log log' run HL Hrun Hnone)
    as (codes & names & first & Hc & Hn & Hfirst & Hp & Hr & Hy).
  fold p in Hfirst, Hp, Hr.
  assert (HF : found first = F) by (rewrite Hfirst; apply Hstable).
  rewrite HF in Hp, Hr. fold n in Hp, Hr.
  exists codes, names.
  split; [exact Hc|]. split; [exact Hn|]. split; [exact Hr|].
  split; [exact Hp|].
  split; [rewrite Hp, length_map; apply length_seq|].
  split; [exact Hy|].
  rewrite (yield_cards_length _ _ Hy), length_concat, map_map.
  reflexivity.
Qed.

Lemma stable_total_pages_witness :
  let result :=
    query (Samples.provider 120) (Some ["Kallio"]) (Some ["rivitalo"]) None
      None None None None 50 [] in
  List.length (pages (fst result)) = 3
  /\ List.length (yielded (fst result)) = 3.
Proof.
  intros result.
  destruct (stable_total_pages (Samples.provider 120) (Some ["Kallio"])
              (Some ["rivitalo"]) None None None None None 50 120 []
              (snd result) (fst result))
    as (codes & names & _ & _ & _ & Hp & Hlen & _ & Hy);
    [reflexivity | reflexivity | reflexivity | reflexivity |].
  split; [exact Hlen|]. rewrite Hy. reflexivity.
Defined.






(** What [_convert_ts] makes of the string the record writes for an
    instant. *)
Lemma convert_ts_strftime (d : Datetime.datetime) :
  Datetime.valid d = true ->
  _convert_ts (VStr (Datetime.strftime d))
  = if (1000 <=? Datetime.year d)%nat then Ok (VDatetime d) else Raise ValueError.
Proof.
  intros Hd.
  rewrite convert_ts_string by apply DatetimeFacts.strftime_not_empty.
  destruct (Nat.leb_spec 1000 (Datetime.year d)) as [Hy|Hy].
  - now rewrite DatetimeFacts.strptime_strftime.
  - now rewrite DatetimeFacts.strptime_strftime_early.
Qed.




End ClientFacts.

(* ================================================================= *)
(** ** The sheet wrapper *)

Module SheetsFacts.
Import Py Obj Sheets.

(** An entry whose id is in the set changes nothing. *)
Lemma insert_known (w : SheetWrapper) (entry : Data.HouseEntry) :
  set_mem (Data.id entry) (ids w) = Ok true -> insert w entry = Ok w.
Proof. intros H. unfold insert. now rewrite H. Qed.

(** An entry whose id is not in the set adds the id and one row, at the
    index given by the size of the set. *)
Lemma insert_new (w : SheetWrapper) (entry : Data.HouseEntry) :
  set_mem (Data.id entry) (ids w) = Ok false ->
  insert w entry
  = Ok (mk_SheetWrapper
          (insert_row (dict_values (Data.asdict entry))
             (List.length (ids w) + 2) (sheet w))
          (ids w ++ [Data.id entry])%list).
Proof.
  intros H. unfold insert, set_add. rewrite H. cbn [rbind negb].
  rewrite length_app. cbn [List.length].
  now replace (List.length (ids w) + 1 + 1) with (List.length (ids w) + 2)
    by lia.
Qed.

(** That index is the end of the sheet when the sheet has the header and
    one row for each id of the set. *)
Lemma insert_row_at_end (row : Row) (rows : Worksheet) (n : nat) :
  List.length rows = S n ->
  insert_row row (n + 2) rows = (rows ++ [row])%list.
Proof.
  intros H. unfold insert_row.
  replace (n + 2 - 1) with (List.length rows) by lia.
  rewrite firstn_all, skipn_all, Nat.sub_diag. reflexivity.
Qed.

(** C10, on a sheet that holds the header and nothing else: the wrapper
    finds no record, writes a second header above the first, and the row of
    the first new entry goes between the two. *)
Lemma header_only_sheet_insert :
  let row := dict_values (Data.asdict Samples.entry42) in
  exists w w',
    init [Samples.header] = Ok w
    /\ sheet w = [Samples.header; Samples.header]
    /\ ids w = []
    /\ insert w Samples.entry42 = Ok w'
    /\ ids w' = [VInt 42]
    /\ sheet w' = [Samples.header; row; Samples.header]
    /\ sheet w' <> (sheet w ++ [row])%list.
Proof.
  intros row. do 2 eexists.
  split; [reflexivity|]. split; [reflexivity|]. split; [reflexivity|].
  split; [reflexivity|]. split; [reflexivity|]. split; [reflexivity|].
  cbn. intros H. discriminate H.
Qed.

End SheetsFacts.

(* ================================================================= *)
(** ** The record *)

Module DataFacts.
Import Py Obj.

(** A keyword dictionary the record accepts holds every attribute. *)
Lemma init_lookup (data : dict value) (h : Data.HouseEntry) :
  Data.init data = Ok h ->
  forall k, In k Data.fields ->
            dict_get k data = dict_get k (Data.dataclass_asdict h).
Proof.
  unfold Data.init, Data.required. intros H.
  destruct (forallb _ _); [|discriminate H].
  repeat match type of H with
         | context [dict_get ?k data] =>
             destruct (dict_get k data) eqn:?; cbn [rbind] in H;
             [|discriminate H]
         end.
  injection H as <-. intros k Hk. unfold Data.fields in Hk. cbn [In] in Hk.
  repeat (destruct Hk as [<-|Hk]; [assumption|]). destruct Hk.
Qed.

Lemma init_keys (data : dict value) (h : Data.HouseEntry) :
  Data.init data = Ok h ->
  forallb (fun k => str_in k Data.fields) (dict_keys data) = true.
Proof.
  unfold Data.init. intros H. now destruct (forallb _ _).
Qed.

Lemma init_from_lookup (data : dict value) (h : Data.HouseEntry) :
  forallb (fun k => str_in k Data.fields) (dict_keys data) = true ->
  (forall k, In k Data.fields ->
             dict_get k data = dict_get k (Data.dataclass_asdict h)) ->
  Data.init data = Ok h.
Proof.
  intros Hkeys Hall. unfold Data.init, Data.required. rewrite Hkeys.
  repeat match goal with
         | |- context [dict_get ?k data] =>
             rewrite (Hall k) by (unfold Data.fields; cbn [In]; tauto);
             cbn [Data.dataclass_asdict dict_get String.eqb Ascii.eqb
                    Bool.eqb rbind]
         end.
  now destruct h.
Qed.

(** X1. The record is built exactly when the keywords are attributes of
    the record and every attribute has its keyword; the record then holds
    the value of each keyword. *)
Theorem init_exact (data : dict value) (h : Data.HouseEntry) :
  Data.init data = Ok h <->
  forallb (fun k => str_in k Data.fields) (dict_keys data) = true
  /\ (forall k, In k Data.fields ->
                dict_get k data = dict_get k (Data.dataclass_asdict h)).
Proof.
  split.
  - intros H. split; [now apply init_keys with h | now apply init_lookup].
  - intros [Hkeys Hall]. now apply init_from_lookup.
Qed.

Lemma format_value_plain (v : value) :
  (forall d, Data.format_value v <> VDatetime d)
  /\ ((forall d, v <> VDatetime d) -> Data.format_value v = v).
Proof.
  destruct v; cbn; split; try discriminate; try reflexivity.
  intros H. now destruct (H d).
Qed.

Lemma asdict_lookup (h : Data.HouseEntry) (k : string) :
  dict_get k (Data.asdict h)
  = option_map Data.format_value (dict_get k (Data.dataclass_asdict h)).
Proof. unfold Data.asdict. apply PyFacts.dict_get_map_values. Qed.

(** X2. The dictionary of a record lists the attributes in the order of
    their declaration.  An attribute that holds an instant is given as a
    string: the year as a decimal number, then month, day, hour, minute and
    second with two digits each, in the layout of the format.  Every other
    attribute is given as it is, and no value of the dictionary is a
    [datetime]. *)
Theorem asdict_values (h : Data.HouseEntry) :
  dict_keys (Data.asdict h) = Data.fields
  /\ (forall k d,
        dict_get k (Data.dataclass_asdict h) = Some (VDatetime d) ->
        Datetime.valid d = true ->
        dict_get k (Data.asdict h) = Some (VStr (Views.stamp d)))
  /\ (forall k v,
        dict_get k (Data.dataclass_asdict h) = Some v ->
        (forall d, v <> VDatetime d) ->
        dict_get k (Data.asdict h) = Some v)
  /\ (forall k v,
        dict_get k (Data.asdict h) = Some v -> forall d, v <> VDatetime d).
Proof.
  split; [reflexivity|]. split; [|split].
  - intros k d Hk Hd. rewrite asdict_lookup, Hk. cbn [option_map].
    cbn [Data.format_value]. now rewrite DatetimeFacts.strftime_stamp.
  - intros k v Hk Hv. rewrite asdict_lookup, Hk. cbn [option_map].
    now rewrite (proj2 (format_value_plain v) Hv).
  - intros k v Hk. rewrite asdict_lookup in Hk.
    destruct (dict_get k (Data.dataclass_asdict h)) as [v0|];
      [|discriminate Hk].
    cbn [option_map] in Hk. injection Hk as <-.
    apply format_value_plain.
Qed.

End DataFacts.

(* ================================================================= *)
(** ** Timestamps *)

Module TimestampFacts.
Import Py Obj Client.

Lemma strptime_valid (s : string) (d : Datetime.datetime) :
  Datetime.strptime s = Ok d -> Datetime.valid d = true.
Proof.
  unfold Datetime.strptime.
  destruct (Datetime.match_format s) as [[d' [|c r]]|]; try discriminate.
  destruct (Datetime.valid d') eqn:E; [|discriminate].
  now intros [= <-].
Qed.

(** X3. What [_convert_ts] returns is [None], for a falsy argument, or an
    instant the [datetime] constructor accepts, parsed from a string; a
    truthy argument that is not a string is a [TypeError]. *)
Theorem convert_ts_result (ts : value) :
  (forall r, _convert_ts ts = Ok r ->
     (truthy ts = false /\ r = VNone)
     \/ (exists s d, ts = VStr s /\ r = VDatetime d
                     /\ Datetime.strptime s = Ok d
                     /\ Datetime.valid d = true))
  /\ (truthy ts = false -> _convert_ts ts = Ok VNone)
  /\ (truthy ts = true -> (forall s, ts <> VStr s) ->
      _convert_ts ts = Raise TypeError).
Proof.
  unfold _convert_ts. split; [|split].
  - intros r H. destruct (truthy ts) eqn:T.
    + right. destruct ts; try discriminate H.
      destruct (Datetime.strptime s) as [d|] eqn:E; [|discriminate H].
      cbn [rbind] in H. injection H as <-.
      exists s, d. repeat split; trivial. now apply strptime_valid with s.
    + left. now injection H as <-.
  - now intros ->.
  - intros -> H. destruct ts; try reflexivity. now destruct (H s).
Qed.

(** X4. Whatever string [_convert_ts] accepts, the record writes the
    instant it returns as the year in decimal followed by the two-digit
    fields.  From the year 1000 on that string is of the strict form of the
    format and is converted to the same instant; before, the year has fewer
    than four digits, the string is not of the format and [_convert_ts]
    answers it with [ValueError]. *)
Theorem convert_ts_normalises (s : string) (d : Datetime.datetime) :
  _convert_ts (VStr s) = Ok (VDatetime d) ->
  Data.format_value (VDatetime d) = VStr (Views.stamp d)
  /\ Datetime.valid_ts (Views.stamp d) = (1000 <=? Datetime.year d)%nat
  /\ _convert_ts (VStr (Views.stamp d))
     = if (1000 <=? Datetime.year d)%nat then Ok (VDatetime d)
       else Raise ValueError.
Proof.
  intros H.
  assert (V : Datetime.valid d = true).
  { unfold _convert_ts in H. destruct (truthy (VStr s)); [|discriminate H].
    destruct (Datetime.strptime s) as [d'|] eqn:E; [|discriminate H].
    cbn [rbind] in H. injection H as <-. now apply strptime_valid with s. }
  rewrite <- (DatetimeFacts.strftime_stamp d V).
  split; [reflexivity|]. split.
  - destruct (Nat.leb_spec 1000 (Datetime.year d)) as [Hy|Hy].
    + now apply DatetimeFacts.valid_ts_strftime.
    + now apply DatetimeFacts.valid_ts_strftime_early.
  - now apply ClientFacts.convert_ts_strftime.
Qed.

Lemma convert_ts_normalises_witness :
  Views.stamp (Datetime.mk_datetime 2021 5 1 1 0 0) = "2021-05-01T01:00:00Z"
  /\ _convert_ts (VStr (Views.stamp (Datetime.mk_datetime 2021 5 1 1 0 0)))
     = Ok (VDatetime (Datetime.mk_datetime 2021 5 1 1 0 0)).
Proof.
  split; [reflexivity|].
  apply (convert_ts_normalises "2021-5-1t1:0:0z"
           (Datetime.mk_datetime 2021 5 1 1 0 0)).
  reflexivity.
Defined.

End TimestampFacts.

(* ================================================================= *)
(** ** Records built from entries *)

Module EntryFacts.
Import Py Obj Client.

Lemma replace_char_removes (c : ascii) (s : string) :
  ~ In c (Views.chars (replace_char c EmptyString s)).
Proof.
  unfold Views.chars. induction s as [|a s IH]; [intros []|].
  cbn [replace_char]. destruct (Ascii.eqb_spec a c) as [->|Hac].
  - exact IH.
  - cbn [list_ascii_of_string In]. intros [H|H]; [now apply Hac|now apply IH].
Qed.

Lemma dict_pop_fst {V} (k : string) (default : V) (d : dict V) :
  fst (dict_pop k default d)
  = match dict_get k d with Some v => v | None => default end.
Proof. unfold dict_pop. now destruct (dict_get k d). Qed.

(** The record and the keyword dictionary it was built from. *)
Lemma entry_builder_data (entry : dict value) (h : Data.HouseEntry) :
  _entry_builder (VDict entry) = Ok h ->
  exists data,
    entry_data entry = Ok data
    /\ forall k, In k Data.fields ->
                 dict_get k data = dict_get k (Data.dataclass_asdict h).
Proof.
  cbn [_entry_builder]. intros H.
  destruct (entry_data entry) as [data|] eqn:E; [|discriminate H].
  exists data. split; [reflexivity|]. now apply DataFacts.init_lookup.
Qed.

(** X5. The description of a record is a string without a newline. *)
Theorem description_single_line (entry : dict value) (h : Data.HouseEntry) :
  _entry_builder (VDict entry) = Ok h ->
  exists s, Data.description h = VStr s
            /\ ~ In ch_newline (Views.chars s).
Proof.
  intros H. destruct (entry_builder_data entry h H) as (data & Hdata & Hall).
  destruct (ClientFacts.entry_data_steps entry data Hdata)
    as (merged & desc & brand & lon & lat & pc & pub
        & _ & Hdesc & _ & _ & _ & _ & _ & ->).
  specialize (Hall "description" ltac:(unfold Data.fields; cbn [In]; tauto)).
  cbv zeta in Hall. rewrite !PyFacts.dict_get_set in Hall.
  cbn [String.eqb Ascii.eqb Bool.eqb] in Hall.
  rewrite PyFacts.dict_get_pop_other in Hall by reflexivity.
  rewrite PyFacts.dict_get_set in Hall. rewrite String.eqb_refl in Hall.
  cbn in Hall. injection Hall as <-.
  unfold strip_newlines in Hdesc.
  destruct (fst (dict_pop "description" (VStr EmptyString) merged));
    try discriminate Hdesc.
  injection Hdesc as <-. eexists. split; [reflexivity|].
  apply replace_char_removes.
Qed.

Lemma description_single_line_witness :
  exists h s,
    _entry_builder (VDict (Samples.listing 7)) = Ok h
    /\ Data.description h = VStr s
    /\ ~ In ch_newline (Views.chars s).
Proof.
  destruct (_entry_builder (VDict (Samples.listing 7))) as [h|e] eqn:E;
    [|vm_compute in E; discriminate E].
  destruct (description_single_line (Samples.listing 7) h E) as (s & Hs & Hn).
  exists h, s. repeat split; assumption.
Defined.

(** X6. The building type of a record is what [buildingData] has under
    [buildingType], [None] without it, whatever the entry has under
    [buildingType] or [building_type]; the room configuration is what the
    entry has under [roomConfiguration], [None] without it. *)
Theorem renamed_attributes (entry bd : dict value) (h : Data.HouseEntry) :
  get_default "buildingData" (VDict []) entry = VDict bd ->
  NoDup (dict_keys bd) ->
  _entry_builder (VDict entry) = Ok h ->
  Data.building_type h = get_default "buildingType" VNone bd
  /\ Data.room_configuration h = get_default "roomConfiguration" VNone entry.
Proof.
  intros Hbd Hnd H.
  destruct (entry_builder_data entry h H) as (data & Hdata & Hall).
  destruct (ClientFacts.entry_data_steps entry data Hdata)
    as (merged & desc & brand & lon & lat & pc & pub
        & Hm & _ & _ & _ & _ & _ & _ & ->).
  destruct (ClientFacts.merged_data_lookup entry bd "buildingType" Hbd Hnd)
    as (merged' & Hm' & Hbt).
  rewrite Hm in Hm'. injection Hm' as <-.
  pose proof (Hall "building_type"
                ltac:(unfold Data.fields; cbn [In]; tauto)) as Hb.
  pose proof (Hall "room_configuration"
                ltac:(unfold Data.fields; cbn [In]; tauto)) as Hr.
  cbv zeta in Hb, Hr. rewrite !PyFacts.dict_get_set in Hb, Hr.
  cbn [String.eqb Ascii.eqb Bool.eqb] in Hb, Hr.
  cbn in Hr. injection Hr as <-.
  cbn [Data.dataclass_asdict dict_get String.eqb Ascii.eqb Bool.eqb] in Hb.
  injection Hb as <-. split; [|reflexivity].
  rewrite dict_pop_fst, PyFacts.dict_get_set.
  cbn [String.eqb Ascii.eqb Bool.eqb].
  rewrite PyFacts.dict_get_pop_other by reflexivity.
  rewrite Hbt. unfold get_default.
  now destruct (dict_get "buildingType" bd).
Qed.

Lemma renamed_attributes_witness :
  exists h,
    _entry_builder (VDict (Samples.listing 7)) = Ok h
    /\ Data.building_type h = VInt 1
    /\ Data.room_configuration h = VStr "2h+kk".
Proof.
  destruct (_entry_builder (VDict (Samples.listing 7))) as [h|e] eqn:E;
    [|vm_compute in E; discriminate E].
  exists h. split; [reflexivity|].
  apply (renamed_attributes (Samples.listing 7)
           [ ("address", VStr "Katu 1"); ("district", VStr "Kallio");
             ("city", VStr "Helsinki"); ("country", VStr "Suomi");
             ("year", VInt 1962); ("buildingType", VInt 1) ] h);
    [reflexivity| |exact E].
  repeat constructor; cbn; intuition discriminate.
Defined.

(** X7. An attribute that [_entry_builder] does not assign itself (the
    id, the url, the price, the address and so on) holds, unconverted, the
    value [buildingData] has under its name or else the value the entry has
    under it. *)
Theorem copied_attributes (entry bd : dict value) (h : Data.HouseEntry)
    (k : string) :
  get_default "buildingData" (VDict []) entry = VDict bd ->
  NoDup (dict_keys bd) ->
  _entry_builder (VDict entry) = Ok h ->
  In k Data.fields ->
  str_in k assigned_keys = false ->
  exists v,
    dict_get k (Data.dataclass_asdict h) = Some v
    /\ match dict_get k bd with
       | Some v' => v = v'
       | None => dict_get k entry = Some v
       end.
Proof.
  intros Hbd Hnd H Hk Hnot.
  destruct (entry_builder_data entry h H) as (data & Hdata & Hall).
  destruct (ClientFacts.merged_data_lookup entry bd k Hbd Hnd)
    as (merged & Hm & Hlook).
  pose proof (ClientFacts.entry_data_untouched entry data merged k
                Hdata Hm Hnot) as Hsame.
  specialize (Hall k Hk). rewrite Hsame, Hlook in Hall.
  assert (F : str_in k Data.fields = true).
  { unfold str_in. apply existsb_exists. exists k.
    split; [exact Hk | apply String.eqb_refl]. }
  rewrite F in Hall.
  assert (S : exists v, dict_get k (Data.dataclass_asdict h) = Some v).
  { unfold Data.fields in Hk. cbn [In] in Hk.
    repeat (destruct Hk as [<-|Hk]; [eexists; reflexivity|]). destruct Hk. }
  destruct S as [v Hv]. exists v. split; [exact Hv|].
  rewrite Hv in Hall.
  destruct (dict_get k bd) as [v'|]; [congruence | exact Hall].
Qed.

Lemma copied_attributes_witness :
  exists h,
    _entry_builder (VDict (Samples.listing 7)) = Ok h
    /\ Data.id h = VInt 7 /\ Data.city h = VStr "Helsinki".
Proof.
  destruct (_entry_builder (VDict (Samples.listing 7))) as [h|e] eqn:E;
    [|vm_compute in E; discriminate E].
  exists h. split; [reflexivity|].
  assert (N : NoDup (dict_keys
                       [ ("address", VStr "Katu 1");
                         ("district", VStr "Kallio");
                         ("city", VStr "Helsinki"); ("country", VStr "Suomi");
                         ("year", VInt 1962); ("buildingType", VInt 1) ]))
    by (repeat constructor; cbn; intuition discriminate).
  split.
  - destruct (copied_attributes (Samples.listing 7) _ h "id" eq_refl N E)
      as (v & Hv & Hsrc);
      [unfold Data.fields; cbn [In]; tauto | reflexivity |].
    cbn in Hv, Hsrc. congruence.
  - destruct (copied_attributes (Samples.listing 7) _ h "city" eq_refl N E)
      as (v & Hv & Hsrc);
      [unfold Data.fields; cbn [In]; tauto | reflexivity |].
    cbn in Hv, Hsrc. congruence.
Defined.

(** X8. No record is built from an entry whose [brand] is not an object
    or is an object without [name], whose [coordinates] is not an object, or
    whose [priceChanged] or [published] is a non-empty string the format
    does not match or a truthy value that is not a string. *)
Theorem rejected_entries (entry : dict value) (h : Data.HouseEntry) :
  _entry_builder (VDict entry) = Ok h ->
  (forall v, dict_get "brand" entry = Some v -> exists d, v = VDict d)
  /\ (forall d, dict_get "brand" entry = Some (VDict d) ->
                dict_get "name" d <> None)
  /\ (forall v, dict_get "coordinates" entry = Some v ->
                exists d, v = VDict d)
  /\ (forall k v,
        k = "priceChanged" \/ k = "published" ->
        dict_get k entry = Some v ->
        truthy v = true ->
        exists s d, v = VStr s /\ Datetime.strptime s = Ok d).
Proof.
  cbn [_entry_builder]. intros H.
  destruct (entry_data entry) as [data|] eqn:Hdata; [|discriminate H].
  destruct (ClientFacts.entry_data_assigned entry data Hdata)
    as (brand & lon & lat & pc & pub
        & Hb & Hlo & _ & Hpc & Hpub & _).
  assert (T : forall v r, truthy v = true -> _convert_ts v = Ok r ->
                          exists s d, v = VStr s /\ Datetime.strptime s = Ok d).
  { intros v r Tv Hr. unfold _convert_ts in Hr. rewrite Tv in Hr.
    destruct v; try discriminate Hr.
    destruct (Datetime.strptime s) as [d|] eqn:Ed; [|discriminate Hr].
    now exists s, d. }
  split; [|split; [|split]].
  - intros v E. unfold brand_name_of, get_default in Hb. rewrite E in Hb.
    destruct v; try discriminate Hb. now eexists.
  - intros d E N. unfold brand_name_of, get_default in Hb. rewrite E in Hb.
    rewrite N in Hb. discriminate Hb.
  - intros v E. unfold coordinate_of, get_default in Hlo. rewrite E in Hlo.
    destruct v; try discriminate Hlo. now eexists.
  - intros k v [->| ->] E Tv.
    + unfold get_default in Hpc. rewrite E in Hpc. now apply T with pc.
    + unfold get_default in Hpub. rewrite E in Hpub. now apply T with pub.
Qed.

Lemma rejected_entries_witness :
  exists h,
    _entry_builder (VDict (Samples.listing 7)) = Ok h
    /\ (forall v, dict_get "brand" (Samples.listing 7) = Some v ->
                  exists d, v = VDict d).
Proof.
  destruct (_entry_builder (VDict (Samples.listing 7))) as [h|e] eqn:E;
    [|vm_compute in E; discriminate E].
  exists h. split; [reflexivity|].
  exact (proj1 (rejected_entries (Samples.listing 7) h E)).
Defined.

End EntryFacts.

(* ================================================================= *)
(** ** The location token and the query string *)

Module ParamsFacts.
Import Py Obj Client.

(** X9. The token is the bracketed, comma-separated list of the items of
    the matches, each [[cardId,cardType,"name"]] with the name's spaces
    as [+]; when no name has a match it is the lone closing bracket. *)
Theorem token_text (P : Provider) (names : list string)
    (log : list Request) :
  fst (location P names log)
  = Ok (match matches P names with
        | [] => "]"
        | ms => "[" ++ join "," (map Views.location_item ms) ++ "]"
        end).
Proof.
  rewrite ClientFacts.location_spec. cbn [fst]. f_equal.
  destruct (matches P names) as [|m ms]; [reflexivity|].
  rewrite (map_ext _ (fun m => Views.location_item m ++ ","))
    by (intros [c loc]; apply ClientFacts.location_info_item).
  rewrite PyFacts.joined_separated.
  now rewrite PyFacts.drop_last_app_snoc.
Qed.

Lemma rmap_codes (ks : list string) (cs : list (list Z)) :
  rmap (fun k => match dict_get k house_types with
                 | Some codes => Ok codes
                 | None => Raise (KeyError k)
                 end) ks = Ok cs
  <-> (forall k, In k ks -> dict_get k house_types <> None)
      /\ cs = map Views.codes_of ks.
Proof.
  revert cs. induction ks as [|x ks IH]; intros cs.
  - cbn. split; [intros [= <-]; split; [intros k []|reflexivity]|].
    now intros [_ ->].
  - cbn [rmap map]. unfold Views.codes_of at 1.
    destruct (dict_get x house_types) as [c|] eqn:Ex; cbn [rbind].
    + destruct (rmap _ ks) as [cs'|e] eqn:Er; cbn [rbind].
      * destruct (proj1 (IH cs') eq_refl) as [Hall ->].
        split.
        -- intros [= <-]. split; [|reflexivity].
           intros k [<-|Hk]; [congruence | now apply Hall].
        -- now intros [_ ->].
      * split; [discriminate|]. intros [Hall _]. exfalso.
        assert (R : @Raise (list (list Z)) e = Ok (map Views.codes_of ks)).
        { apply IH. split; [|reflexivity]. intros k Hk. apply Hall. now right. }
        discriminate R.
    + split; [discriminate|]. intros [Hall _]. exfalso.
      now apply (Hall x (or_introl eq_refl)).
Qed.

Lemma known_category (k : string) :
  dict_get k house_types <> None
  <-> In k ["kerrostalo"; "rivitalo"; "paritalo"; "omakotitalo"].
Proof.
  pose proof (ClientFacts.house_types_unknown k) as U.
  split.
  - intros H.
    destruct (in_dec string_dec k
                ["kerrostalo"; "rivitalo"; "paritalo"; "omakotitalo"])
      as [Hin|Hout]; [exact Hin|]. exfalso. apply H. now apply U.
  - intros Hin E. apply U in E. now apply E.
Qed.

Lemma expand_known (ks : list string) :
  (forall k, In k ks ->
             In k ["kerrostalo"; "rivitalo"; "paritalo"; "omakotitalo"]) ->
  expand_house_types (Some ks) = Ok (flat_map Views.codes_of ks).
Proof.
  intros Hall. unfold expand_house_types.
  rewrite (proj2 (rmap_codes ks (map Views.codes_of ks))).
  - cbn [rbind]. now rewrite flat_map_concat_map.
  - split; [|reflexivity]. intros k Hk. apply known_category. now apply Hall.
Qed.

(** X10. The house types are expanded exactly when every name is one of
    the four categories; the codes are then those of the names, in the
    order of the names and with repetitions. *)
Theorem expand_exact (ks : list string) (codes : list Z) :
  expand_house_types (Some ks) = Ok codes
  <-> (forall k, In k ks ->
                 In k ["kerrostalo"; "rivitalo"; "paritalo"; "omakotitalo"])
      /\ codes = flat_map Views.codes_of ks.
Proof.
  split.
  - intros H. unfold expand_house_types in H.
    destruct (rmap _ ks) as [cs|e] eqn:Er; [|discriminate H].
    cbn [rbind] in H. injection H as <-.
    apply rmap_codes in Er. destruct Er as [Hall ->].
    split; [|now rewrite flat_map_concat_map].
    intros k Hk. apply known_category. now apply Hall.
  - intros [Hall ->]. now apply expand_known.
Qed.

(** X11. With the house types left at [None] the query raises
    [TypeError]; so it does with the locations left at [None] and house
    types that are all known.  In both cases nothing is requested and
    nothing is yielded. *)
Theorem default_filters_raise (P : Provider)
    (locs house : option (list string)) (rooms : option (list Z))
    (pmin pmax smin smax : option Z) (lim : Z) (log : list Request) :
  house = None
  \/ (locs = None /\ exists codes, expand_house_types house = Ok codes) ->
  query P locs house rooms pmin pmax smin smax lim log
  = (mk_Run [] [] (Some TypeError), log).
Proof.
  intros H. unfold query, _execute, _params_builder, bind, lift.
  cbn [house_type locations query_params].
  destruct H as [->|[-> [codes ->]]]; reflexivity.
Qed.

Lemma default_filters_raise_witness :
  query (Samples.provider 10) (Some ["Keskusta, Helsinki"]) None None None
    None None None 50 []
  = (mk_Run [] [] (Some TypeError), []).
Proof.
  apply default_filters_raise. now left.
Defined.

Lemma append_bracket_nonempty (s : string) :
  String.eqb (s ++ "]") EmptyString = false.
Proof. now destruct s. Qed.

Lemma emitted_ints (key : string) (zs : list Z) :
  emitted key (PInts zs)
  = Views.repeated (match dict_get key param_map with
                    | Some key' => key'
                    | None => key
                    end) zs.
Proof. unfold emitted, Views.repeated. now destruct zs. Qed.

Lemma emitted_bound (key : string) (o : option Z) :
  emitted key (of_opt_int o)
  = Views.bound (match dict_get key param_map with
                 | Some key' => key'
                 | None => key
                 end) o.
Proof.
  unfold emitted, Views.bound. destruct o as [z|]; [|reflexivity].
  cbn [of_opt_int pval_truthy]. now destruct (z =? 0)%Z.
Qed.

(** X12. With the locations given and house types that are all known,
    [_params_builder] issues one lookup per name and returns [?] followed
    by the assignments joined with [&], in this order: the location token,
    one [buildingType[]] per code, one [roomCount[]] per room count, the
    four bounds under [price[min]], [price[max]], [size[min]] and
    [size[max]], then [limit], [cardType], [offset] and [sortBy]; a value
    that is unset, zero or empty has no assignment. *)
Theorem query_string (P : Provider) (p : Params) (names ks : list string)
    (log : list Request) :
  locations p = Some names ->
  house_type p = Some ks ->
  (forall k, In k ks ->
             In k ["kerrostalo"; "rivitalo"; "paritalo"; "omakotitalo"]) ->
  _params_builder P p log
  = (Ok ("?" ++ join "&"
           (map Views.assignment
              ((("locations", token_of P names)
                :: Views.repeated "buildingType[]" (flat_map Views.codes_of ks))
               ++ Views.repeated "roomCount[]"
                    (match room_count p with Some l => l | None => [] end)
               ++ Views.bound "price[min]" (price_min p)
               ++ Views.bound "price[max]" (price_max p)
               ++ Views.bound "size[min]" (size_min p)
               ++ Views.bound "size[max]" (size_max p)
               ++ Views.bound "limit" (Some (limit p))
               ++ Views.bound "cardType" (Some (cardType_ p))
               ++ Views.bound "offset" (Some (offset p))
               ++ (if String.eqb (sortBy p) EmptyString then []
                   else [("sortBy", sortBy p)]))%list)),
     (log ++ map GetLocation names)%list).
Proof.
  intros Hn Hk Hall.
  unfold _params_builder, bind, lift. rewrite Hk.
  rewrite (expand_known ks Hall).
  unfold resolve_locations. rewrite Hn, ClientFacts.location_spec.
  fold (token_of P names). unfold ret. f_equal. f_equal.
  apply ClientFacts.encode_text.
  unfold emitted_pairs, params_items. cbn [flat_map fst snd].
  rewrite emitted_ints, !emitted_bound.
  change (PInt (limit p)) with (of_opt_int (Some (limit p))).
  change (PInt (cardType_ p)) with (of_opt_int (Some (cardType_ p))).
  change (PInt (offset p)) with (of_opt_int (Some (offset p))).
  rewrite !emitted_bound.
  cbn [dict_get param_map String.eqb Ascii.eqb Bool.eqb].
  assert (L : emitted "locations" (PStr (token_of P names))
              = [("locations", token_of P names)]).
  { unfold emitted. cbn [pval_truthy]. unfold token_of.
    now rewrite append_bracket_nonempty. }
  rewrite L.
  assert (R : emitted "room_count" (of_opt_ints (room_count p))
              = Views.repeated "roomCount[]"
                  (match room_count p with Some l => l | None => [] end)).
  { destruct (room_count p) as [l|]; [apply emitted_ints|reflexivity]. }
  rewrite R.
  assert (S : emitted "sortBy" (PStr (sortBy p))
              = if String.eqb (sortBy p) EmptyString then []
                else [("sortBy", sortBy p)]).
  { unfold emitted. cbn [pval_truthy].
    now destruct (String.eqb (sortBy p) EmptyString). }
  rewrite S. cbn [app]. now rewrite app_nil_r.
Qed.

Lemma query_string_witness :
  fst (_params_builder (Samples.provider 10)
         (set_offset
            (query_params (Some ["Kallio"]) (Some ["rivitalo"; "kerrostalo"])
               (Some [2; 3]%Z) (Some 100000%Z) None None (Some 0%Z) 50)
            100) [])
  = Ok ("?locations=" ++ token_of (Samples.provider 10) ["Kallio"]
        ++ "&buildingType[]=2&buildingType[]=1&buildingType[]=256"
        ++ "&roomCount[]=2&roomCount[]=3&price[min]=100000"
        ++ "&limit=50&cardType=101&offset=100&sortBy=published_sort_desc").
Proof.
  rewrite (query_string (Samples.provider 10) _ ["Kallio"]
             ["rivitalo"; "kerrostalo"] []); try reflexivity.
  cbn [In]. intros k [<-|[<-|[]]]; auto.
Defined.

End ParamsFacts.

(* ================================================================= *)
(** ** Runs of the query *)

Module QueryFacts.
Import Py Obj Client.

(** What one call of [_execute] adds to the log: nothing when it raises,
    the lookups and the listings request when it returns. *)
Lemma execute_log (P : Provider) (p : Params) (log log' : list Request)
    (r : result Page) :
  _execute P p log = (r, log') ->
  match r with
  | Raise _ => log' = log
  | Ok data =>
      exists codes names,
        expand_house_types (house_type p) = Ok codes
        /\ locations p = Some names
        /\ data = cards_api P (List.length (cards_requests log))
                    (page_url p (token_of P names) codes)
        /\ log' = (log ++ map GetLocation names
                   ++ [GetCards (page_url p (token_of P names) codes)])%list
  end.
Proof.
  unfold _execute, _params_builder, bind, lift. intros H.
  destruct (expand_house_types (house_type p)) as [codes|e];
    [|now injection H as <- <-].
  unfold resolve_locations in H.
  destruct (locations p) as [names|];
    [|unfold throw in H; now injection H as <- <-].
  rewrite ClientFacts.location_spec in H. unfold ret, get_cards in H.
  injection H as <- <-.
  exists codes, names. repeat split.
  - fold (cards_requests (log ++ map GetLocation names)).
    now rewrite ClientFacts.cards_requests_locations.
  - now rewrite <- app_assoc.
Qed.

Lemma cards_requests_page (log : list Request) (names : list string)
    (url : string) :
  List.length
    (cards_requests (log ++ map GetLocation names ++ [GetCards url]))
  = S (List.length (cards_requests log)).
Proof.
  rewrite app_assoc. unfold cards_requests at 1. rewrite filter_app.
  fold (cards_requests (log ++ map GetLocation names)).
  rewrite ClientFacts.cards_requests_locations, length_app. cbn. lia.
Qed.

(** The loop over the offsets, however it ends. *)
Lemma query_loop_any (P : Provider) (offsets : list Z) :
  forall (p : Params) (log log' : list Request) (run : Run),
    query_loop P p offsets log = (run, log') ->
    fst (yield_cards (List.concat (map cards (pages run)))) = yielded run
    /\ List.length (cards_requests log')
       = List.length (cards_requests log) + List.length (pages run)
    /\ exists added, log' = (log ++ added)%list.
Proof.
  induction offsets as [|i rest IH]; intros p log log' run H.
  - cbn in H. injection H as <- <-. cbn.
    repeat split; [lia|]. exists []. now rewrite app_nil_r.
  - cbn [query_loop] in H.
    destruct (_execute P (set_offset p i) log) as [[data|e] log1] eqn:E.
    + apply execute_log in E.
      destruct E as (codes & names & _ & _ & _ & ->).
      destruct (yield_cards (cards data)) as [hs [e|]] eqn:Y.
      * injection H as <- <-. cbn [pages yielded map List.concat].
        rewrite app_nil_r, Y, cards_requests_page. cbn.
        repeat split; [lia|]. now eexists.
      * destruct (query_loop P (set_offset p i) rest _) as [run1 log2] eqn:R.
        injection H as <- <-.
        destruct (IH _ _ _ _ R) as (Hy & Hl & added & ->).
        cbn [pages yielded map List.concat].
        rewrite (ClientFacts.yield_cards_app _ _ hs Y). cbn [fst].
        rewrite Hy, Hl, cards_requests_page. cbn [List.length].
        repeat split; [lia|]. rewrite <- app_assoc. now eexists.
    + apply execute_log in E. subst log1. injection H as <- <-. cbn.
      repeat split; [lia|]. exists []. now rewrite app_nil_r.
Qed.

(** X13. However a query ends, the records it yielded are those built
    from the cards of the pages it received, in order and up to the first
    card that could not be built; it received one page for each listings
    request it issued; and the requests it issued were added at the end of
    the log. *)
Theorem run_invariant (P : Provider) (locs house : option (list string))
    (rooms : option (list Z)) (pmin pmax smin smax : option Z) (lim : Z)
    (log : list Request) :
  let result := query P locs house rooms pmin pmax smin smax lim log in
  fst (yield_cards (List.concat (map cards (pages (fst result)))))
  = yielded (fst result)
  /\ List.length (cards_requests (snd result))
     = List.length (cards_requests log) + List.length (pages (fst result))
  /\ exists added, snd result = (log ++ added)%list.
Proof.
  unfold query.
  set (p := query_params locs house rooms pmin pmax smin smax lim).
  destruct (_execute P p log) as [[data|e] log1] eqn:E.
  - apply execute_log in E. destruct E as (codes & names & _ & _ & _ & ->).
    destruct (yield_cards (cards data)) as [hs [e|]] eqn:Y.
    + cbn [fst snd pages yielded map List.concat].
      rewrite app_nil_r, Y, cards_requests_page. cbn.
      repeat split; [lia|]. now eexists.
    + destruct (found data >? lim)%Z.
      * destruct (range lim (found data) lim) as [offsets|e].
        -- destruct (query_loop P p offsets _) as [run1 log2] eqn:R.
           destruct (query_loop_any _ _ _ _ _ _ R) as (Hy & Hl & added & ->).
           cbn [fst snd pages yielded map List.concat].
           rewrite (ClientFacts.yield_cards_app _ _ hs Y). cbn [fst].
           rewrite Hy, Hl, cards_requests_page. cbn [List.length].
           repeat split; [lia|]. rewrite <- app_assoc. now eexists.
        -- cbn [fst snd pages yielded map List.concat].
           rewrite app_nil_r, Y, cards_requests_page. cbn.
           repeat split; [lia|]. now eexists.
      * cbn [fst snd pages yielded map List.concat].
        rewrite app_nil_r, Y, cards_requests_page. cbn.
        repeat split; [lia|]. now eexists.
  - apply execute_log in E. subst log1. cbn.
    repeat split; [unfold cards_requests; lia|].
    exists []. now rewrite app_nil_r.
Qed.

Lemma flat_map_seq_succ {A} (f : nat -> list A) (m : nat) :
  flat_map f (seq 0 (S m))
  = (f 0 ++ flat_map (fun k => f (S k)) (seq 0 m))%list.
Proof.
  cbn [seq flat_map]. f_equal. rewrite <- seq_shift.
  generalize (seq 0 m) as l. induction l as [|a l IH]; [reflexivity|].
  cbn [map flat_map]. now rewrite IH.
Qed.

(** The loop over the offsets, when it runs to its end: the whole log. *)
Lemma query_loop_full (P : Provider) (names : list string) (codes : list Z)
    (step : Z) (m : nat) :
  forall (p : Params) (start : Z) (log log' : list Request) (run : Run),
    expand_house_types (house_type p) = Ok codes ->
    locations p = Some names ->
    query_loop P p (range_items start step m) log = (run, log') ->
    raised run = None ->
    log' = (log
            ++ flat_map
                 (fun k =>
                    map GetLocation names
                    ++ [GetCards
                          (url_at P p names codes
                             (start + Z.of_nat k * step))])
                 (seq 0 m))%list
    /\ List.length (pages run) = m.
Proof.
  induction m as [|m IH]; intros p start log log' run Hc Hn Hrun Hnone.
  - cbn in Hrun. injection Hrun as <- <-. cbn. now rewrite app_nil_r.
  - rewrite ClientFacts.range_items_succ in Hrun. cbn [query_loop] in Hrun.
    destruct (_execute P (set_offset p start) log) as [[data|e] log1] eqn:E;
      [|injection Hrun as <- <-; discriminate Hnone].
    apply execute_log in E.
    destruct E as (codes' & names' & Hc' & Hn' & _ & ->).
    cbn [house_type locations set_offset] in Hc', Hn'.
    rewrite Hc in Hc'. injection Hc' as <-.
    rewrite Hn in Hn'. injection Hn' as <-.
    destruct (yield_cards (cards data)) as [hs [e|]] eqn:Y;
      [injection Hrun as <- <-; discriminate Hnone|].
    destruct (query_loop P (set_offset p start)
                (range_items (start + step) step m) _)
      as [run1 log2] eqn:R.
    injection Hrun as <- <-. cbn [raised pages] in Hnone |- *.
    destruct (IH (set_offset p start) (start + step)%Z _ log2 run1
                Hc Hn R Hnone) as (-> & Hlen).
    split; [|cbn [List.length]; now rewrite Hlen].
    rewrite flat_map_seq_succ. rewrite <- !app_assoc. do 2 f_equal.
    cbn [app]. f_equal.
    + unfold url_at.
      now replace (start + Z.of_nat 0 * step)%Z with start by (cbn; lia).
    + apply flat_map_ext. intros k. do 3 f_equal.
      unfold url_at. rewrite ClientFacts.set_offset_twice. do 2 f_equal.
      rewrite Nat2Z.inj_succ. ring.
Qed.

(** X14. In a query that runs to its end, every page is preceded by a
    lookup of every location name: the requests are, page after page, the
    lookups of the names in their order and then the listings request at
    offset [k * lim] (the first one at offset 0). *)
Theorem lookups_repeated (P : Provider) (locs house : option (list string))
    (rooms : option (list Z)) (pmin pmax smin smax : option Z) (lim : Z)
    (log log' : list Request) (run : Run) :
  query P locs house rooms pmin pmax smin smax lim log = (run, log') ->
  raised run = None ->
  let p := query_params locs house rooms pmin pmax smin smax lim in
  exists codes names,
    expand_house_types house = Ok codes
    /\ locs = Some names
    /\ log' = (log
               ++ flat_map
                    (fun k =>
                       map GetLocation names
                       ++ [GetCards
                             (url_at P p names codes (Z.of_nat k * lim))])
                    (seq 0 (List.length (pages run))))%list.
Proof.
  intros Hrun Hnone p. unfold query in Hrun. fold p in Hrun.
  destruct (_execute P p log) as [[data|e] log1] eqn:E;
    [|injection Hrun as <- <-; discriminate Hnone].
  apply execute_log in E.
  destruct E as (codes & names & Hc & Hn & _ & ->).
  cbn [house_type locations p query_params] in Hc, Hn.
  exists codes, names. split; [exact Hc|]. split; [exact Hn|].
  change (page_url p (token_of P names) codes)
    with (url_at P p names codes (Z.of_nat 0 * lim)) in Hrun.
  destruct (yield_cards (cards data)) as [hs [e|]] eqn:Y;
    [injection Hrun as <- <-; discriminate Hnone|].
  destruct (found data >? lim)%Z.
  - unfold range in Hrun.
    destruct (Z.eqb_spec lim 0) as [?|_];
      [injection Hrun as <- <-; discriminate Hnone|].
    destruct (query_loop P p
                (range_items lim lim
                   (Z.to_nat (range_len lim (found data) lim))) _)
      as [run1 log2] eqn:R.
    injection Hrun as <- <-. cbn [raised pages] in Hnone |- *.
    destruct (query_loop_full P names codes lim _ p lim _ log2 run1
                Hc Hn R Hnone) as (-> & Hlen).
    cbn [List.length]. rewrite Hlen, flat_map_seq_succ.
    rewrite <- !app_assoc. do 3 f_equal.
    apply flat_map_ext. intros k. do 4 f_equal.
    rewrite Nat2Z.inj_succ. ring.
  - injection Hrun as <- <-. cbn [pages List.length seq flat_map].
    now rewrite app_nil_r.
Qed.

Lemma lookups_repeated_witness :
  let result :=
    query (Samples.provider 80) (Some ["Kallio"; "Nowhere"])
      (Some ["rivitalo"]) None None None None None 50 [] in
  map (fun r => match r with
                | GetLocation name => name
                | GetCards _ => "cards"
                end) (snd result)
  = ["Kallio"; "Nowhere"; "cards"; "Kallio"; "Nowhere"; "cards"].
Proof.
  intros result.
  destruct (lookups_repeated (Samples.provider 80)
              (Some ["Kallio"; "Nowhere"]) (Some ["rivitalo"]) None None
              None None None 50 [] (snd result) (fst result))
    as (codes & names & _ & Hn & Hlog); [reflexivity | reflexivity |].
  injection Hn as <-. rewrite Hlog. reflexivity.
Defined.

(** X15. With a page size of 0 or less the query asks for one page at
    most.  When the records of that page are all built, a page size of 0
    ends the query with [ValueError] if the page reports a total above 0;
    otherwise the query ends normally. *)
Theorem nonpositive_page_size (P : Provider)
    (locs house : option (list string)) (rooms : option (list Z))
    (pmin pmax smin smax : option Z) (lim : Z) (log : list Request) :
  (lim <= 0)%Z ->
  let run := fst (query P locs house rooms pmin pmax smin smax lim log) in
  List.length (pages run) <= 1
  /\ forall data hs,
       pages run = [data] ->
       yield_cards (cards data) = (hs, None) ->
       yielded run = hs
       /\ raised run
          = if (lim =? 0)%Z && (found data >? 0)%Z then Some ValueError
            else None.
Proof.
  intros Hlim. unfold query.
  set (p := query_params locs house rooms pmin pmax smin smax lim).
  destruct (_execute P p log) as [[data|e] log1];
    [|cbn; split; [lia|discriminate]].
  destruct (yield_cards (cards data)) as [hs [e|]] eqn:Y.
  - cbn. split; [lia|]. intros d hs' [= <-] Y'. congruence.
  - destruct (Z.gtb_spec (found data) lim) as [Hgt|Hle].
    + unfold range. destruct (Z.eqb_spec lim 0) as [->|Hne].
      * cbn. split; [lia|]. intros d hs' [= <-] Y'.
        rewrite Y in Y'. injection Y' as <-. split; [reflexivity|].
        destruct (Z.gtb_spec (found data) 0); [reflexivity|lia].
      * assert (R : range_len lim (found data) lim = 0%Z).
        { unfold range_len.
          destruct (Z.ltb_spec 0 lim); [lia|].
          destruct (Z.ltb_spec (found data) lim); [lia|reflexivity]. }
        rewrite R. cbn. split; [lia|]. intros d hs' [= <-] Y'.
        rewrite Y in Y'. injection Y' as <-.
        split; [apply app_nil_r|reflexivity].
    + cbn. split; [lia|]. intros d hs' [= <-] Y'.
      rewrite Y in Y'. injection Y' as <-. split; [reflexivity|].
      destruct (Z.eqb_spec lim 0) as [->|Hne]; [|reflexivity].
      destruct (Z.gtb_spec (found data) 0); [lia|reflexivity].
Qed.

Lemma nonpositive_page_size_witness :
  raised
    (fst (query (Samples.provider 10) (Some []) (Some []) None None None
            None None 0 []))
  = Some ValueError.
Proof.
  destruct (nonpositive_page_size (Samples.provider 10) (Some []) (Some [])
              None None None None None 0 [] ltac:(discriminate))
    as [_ H].
  destruct (H (mk_Page [VDict (Samples.listing 0)] 10) _ eq_refl eq_refl)
    as [_ Hr].
  exact Hr.
Defined.

End QueryFacts.

(* ================================================================= *)
(** ** The wrapper and its sheet *)

Module WrapperFacts.
Import Py Obj Sheets.

Lemma py_eqb_refl (x : value) : hashable x = true -> py_eqb x x = true.
Proof.
  destruct x; cbn; try discriminate; intros _;
    try (apply QArith_base.Qeq_bool_iff; apply QArith_base.Qeq_refl).
  - reflexivity.
  - apply String.eqb_refl.
  - now rewrite !Nat.eqb_refl.
Qed.

Lemma set_mem_ok (x : value) (s : pyset) (b : bool) :
  set_mem x s = Ok b -> hashable x = true /\ b = existsb (py_eqb x) s.
Proof.
  unfold set_mem. destruct (hashable x); [|discriminate].
  now intros [= <-].
Qed.

Lemma set_mem_snoc (x : value) (s : pyset) :
  hashable x = true -> set_mem x (s ++ [x])%list = Ok true.
Proof.
  intros H. unfold set_mem. rewrite H, existsb_app. cbn.
  now rewrite (py_eqb_refl x H), orb_true_r.
Qed.

Lemma set_mem_grows (x y : value) (s : pyset) :
  set_mem x s = Ok true -> set_mem x (s ++ [y])%list = Ok true.
Proof.
  intros H. apply set_mem_ok in H. destruct H as [Hh He].
  unfold set_mem. rewrite Hh, existsb_app, <- He. reflexivity.
Qed.

(** What [insert] does, by the test on the id. *)
Lemma insert_cases (w w' : SheetWrapper) (entry : Data.HouseEntry) :
  insert w entry = Ok w' ->
  hashable (Data.id entry) = true
  /\ if existsb (py_eqb (Data.id entry)) (ids w) then w' = w
     else w' = mk_SheetWrapper
                 (insert_row (Views.row_of entry)
                    (List.length (ids w) + 2) (sheet w))
                 (ids w ++ [Data.id entry])%list.
Proof.
  intros H. unfold insert in H.
  destruct (set_mem (Data.id entry) (ids w)) as [b|] eqn:M; [|discriminate H].
  destruct (set_mem_ok _ _ _ M) as [Hh ->]. split; [exact Hh|].
  cbn [rbind] in H.
  destruct (existsb (py_eqb (Data.id entry)) (ids w)) eqn:E; cbn [negb] in H.
  - now injection H as <-.
  - assert (N : set_mem (Data.id entry) (ids w) = Ok false) by exact M.
    unfold set_add in H. rewrite N in H. cbn [rbind negb] in H.
    injection H as <-. unfold Views.row_of. f_equal. f_equal.
    rewrite length_app. cbn. lia.
Qed.

Lemma insert_member (w w' : SheetWrapper) (entry : Data.HouseEntry) :
  insert w entry = Ok w' -> set_mem (Data.id entry) (ids w') = Ok true.
Proof.
  intros H. destruct (insert_cases w w' entry H) as [Hh Hc].
  destruct (existsb (py_eqb (Data.id entry)) (ids w)) eqn:E; subst w'.
  - unfold set_mem. now rewrite Hh, E.
  - cbn [ids]. now apply set_mem_snoc.
Qed.

(** X16. Inserting the same record a second time changes nothing: the
    first insertion has put its id in the set. *)
Theorem insert_twice (w w' : SheetWrapper) (entry : Data.HouseEntry) :
  insert w entry = Ok w' ->
  set_mem (Data.id entry) (ids w') = Ok true /\ insert w' entry = Ok w'.
Proof.
  intros H. pose proof (insert_member w w' entry H) as M.
  split; [exact M|]. now apply SheetsFacts.insert_known.
Qed.

Lemma insert_twice_witness :
  exists w w',
    init [] = Ok w /\ insert w Samples.entry42 = Ok w'
    /\ insert w' Samples.entry42 = Ok w'.
Proof.
  destruct (init []) as [w|e] eqn:I; [|vm_compute in I; discriminate I].
  destruct (insert w Samples.entry42) as [w'|e] eqn:E;
    [|vm_compute in I; injection I as <-; vm_compute in E; discriminate E].
  exists w, w'. split; [reflexivity|]. split; [exact E|].
  exact (proj2 (insert_twice w w' Samples.entry42 E)).
Defined.

Lemma load_raise (records : list (dict value)) (e : exn) :
  fold_left Views.load_step records (Raise e) = Raise e.
Proof. induction records as [|r rs IH]; [reflexivity|exact IH]. Qed.

Lemma load_members (records : list (dict value)) :
  forall acc loaded,
    fold_left Views.load_step records (Ok acc) = Ok loaded ->
    (forall x, set_mem x acc = Ok true -> set_mem x loaded = Ok true)
    /\ forall r, In r records ->
                 exists v, dict_get "id" r = Some v
                           /\ set_mem v loaded = Ok true.
Proof.
  induction records as [|r rs IH]; intros acc loaded H.
  - cbn in H. injection H as <-. split; [auto|intros r []].
  - cbn [fold_left] in H. unfold Views.load_step at 2 in H. cbn [rbind] in H.
    destruct (dict_get "id" r) as [v|] eqn:Ev;
      [|rewrite load_raise in H; discriminate H].
    unfold set_add in H.
    destruct (set_mem v acc) as [b|] eqn:M; cbn [rbind] in H;
      [|rewrite load_raise in H; discriminate H].
    destruct (IH _ _ H) as [Hkeep Hall].
    destruct (set_mem_ok _ _ _ M) as [Hh Hb].
    assert (G : forall x, set_mem x acc = Ok true ->
                          set_mem x (if b then acc else (acc ++ [v])%list)
                          = Ok true).
    { intros x Hx. destruct b; [exact Hx | now apply set_mem_grows]. }
    split; [intros x Hx; apply Hkeep; now apply G|].
    intros r' [<-|Hin]; [|now apply Hall].
    exists v. split; [exact Ev|]. apply Hkeep.
    destruct b; [now rewrite M | now apply set_mem_snoc].
Qed.

(** X17. On a sheet without records, the wrapper writes the header as the
    first row, above what is there, and knows no id.  On a sheet with
    records the sheet is left as it is, every record has an id, the id is
    in the set, and a record with that id is not inserted. *)
Theorem init_loads (sheet0 : Worksheet) (w : SheetWrapper) :
  init sheet0 = Ok w ->
  (get_all_records sheet0 = [] ->
   sheet w = map VStr Data.fields :: sheet0 /\ ids w = [])
  /\ (get_all_records sheet0 <> [] ->
      sheet w = sheet0
      /\ forall r, In r (get_all_records sheet0) ->
           exists v, dict_get "id" r = Some v
                     /\ set_mem v (ids w) = Ok true
                     /\ forall entry, Data.id entry = v ->
                                      insert w entry = Ok w).
Proof.
  unfold init. intros H. split.
  - intros E. rewrite E in H. now injection H as <-.
  - intros N. destruct (get_all_records sheet0) as [|r0 rs] eqn:E;
      [now destruct N|].
    change (fold_left _ (r0 :: rs) (Ok []))
      with (fold_left Views.load_step (r0 :: rs) (Ok [])) in H.
    destruct (fold_left Views.load_step (r0 :: rs) (Ok [])) as [loaded|]
      eqn:L; [|discriminate H].
    cbn [rbind] in H. injection H as <-. cbn [sheet ids].
    split; [reflexivity|].
    destruct (load_members _ _ _ L) as [_ Hall].
    intros r Hr. destruct (Hall r Hr) as (v & Hv & Hm).
    exists v. split; [exact Hv|]. split; [exact Hm|].
    intros entry <-. now apply SheetsFacts.insert_known.
Qed.

Lemma init_loads_witness :
  exists w,
    init [Samples.header; Views.row_of Samples.entry42] = Ok w
    /\ insert w Samples.entry42 = Ok w.
Proof.
  destruct (init [Samples.header; Views.row_of Samples.entry42])
    as [w|e] eqn:I; [|vm_compute in I; discriminate I].
  exists w. split; [reflexivity|].
  destruct (init_loads _ w I) as [_ H].
  destruct H as [_ H]; [discriminate|].
  destruct (H (Views.record_of Samples.header (Views.row_of Samples.entry42)))
    as (v & Hv & _ & Hins); [now left|].
  apply Hins. vm_compute in Hv. now injection Hv as <-.
Defined.

(** When the sheet has the header and one row for each id of the set, the
    records fed to [insert] add their rows at the end, one for each id
    not seen before. *)
Lemma feed_rows (entries : list Data.HouseEntry) :
  forall w w',
    List.length (sheet w) = S (List.length (ids w)) ->
    Tasks.feed Views.sink entries w = (w', None) ->
    sheet w' = (sheet w ++ map Views.row_of (Views.fresh (ids w) entries))%list
    /\ ids w' = (ids w ++ map Data.id (Views.fresh (ids w) entries))%list.
Proof.
  induction entries as [|e rest IH]; intros w w' T H.
  - cbn in H. injection H as <-. cbn. now rewrite !app_nil_r.
  - cbn [Tasks.feed] in H. unfold Views.sink at 1 in H.
    destruct (insert w e) as [w1|] eqn:I; [|discriminate H].
    destruct (insert_cases w w1 e I) as [Hh Hc].
    cbn [Views.fresh].
    destruct (existsb (py_eqb (Data.id e)) (ids w)) eqn:E.
    + subst w1. now apply IH.
    + assert (T1 : List.length (sheet w1) = S (List.length (ids w1))).
      { subst w1. cbn [sheet ids].
        rewrite (SheetsFacts.insert_row_at_end _ _ _ T), !length_app.
        cbn. lia. }
      destruct (IH w1 w' T1 H) as [Hs Hi].
      subst w1. cbn [sheet ids] in Hs, Hi.
      rewrite (SheetsFacts.insert_row_at_end _ _ _ T) in Hs.
      cbn [map]. rewrite Hs, Hi, <- !app_assoc. now split.
Qed.

(** X18. When the sheet has the header and one row for each id of the
    set, a run of insertions that does not raise adds, at the end of the
    sheet and in the order of arrival, the row of each record whose id was
    not seen before, and adds these ids to the set. *)
Theorem rows_appended (entries : list Data.HouseEntry)
    (w w' : SheetWrapper) :
  List.length (sheet w) = S (List.length (ids w)) ->
  Tasks.feed Views.sink entries w = (w', None) ->
  sheet w' = (sheet w ++ map Views.row_of (Views.fresh (ids w) entries))%list
  /\ ids w' = (ids w ++ map Data.id (Views.fresh (ids w) entries))%list
  /\ List.length (sheet w') = S (List.length (ids w')).
Proof.
  intros T H. destruct (feed_rows entries w w' T H) as [Hs Hi].
  split; [exact Hs|]. split; [exact Hi|].
  rewrite Hs, Hi, !length_app, !length_map. lia.
Qed.

Lemma rows_appended_witness :
  exists w',
    Tasks.feed Views.sink [Samples.entry42; Samples.entry42]
      (mk_SheetWrapper [Samples.header] []) = (w', None)
    /\ sheet w' = [Samples.header; Views.row_of Samples.entry42].
Proof.
  eexists. split; [reflexivity|].
  refine (proj1 (rows_appended [Samples.entry42; Samples.entry42]
                   (mk_SheetWrapper [Samples.header] []) _ eq_refl eq_refl)).
Defined.

Lemma init_records (sheet0 : Worksheet) (r : dict value)
    (rs : list (dict value)) :
  get_all_records sheet0 = r :: rs ->
  init sheet0
  = rbind (fold_left Views.load_step (r :: rs) (Ok []))
      (fun loaded => Ok (mk_SheetWrapper sheet0 loaded)).
Proof. intros E. unfold init. now rewrite E. Qed.

(** The record read back from the row of an entry has the entry's id. *)
Lemma record_id (entry : Data.HouseEntry) :
  dict_get "id"
    (Views.record_of (map VStr Data.fields) (Views.row_of entry))
  = Some (Data.format_value (Data.id entry)).
Proof. destruct entry. reflexivity. Qed.

Lemma reload (entries : list Data.HouseEntry) :
  forall seen,
    forallb Views.int_id entries = true ->
    fold_left Views.load_step
      (map (Views.record_of (map VStr Data.fields))
         (map Views.row_of (Views.fresh seen entries)))
      (Ok seen)
    = Ok (seen ++ map Data.id (Views.fresh seen entries))%list.
Proof.
  induction entries as [|e rest IH]; intros seen Hint.
  - cbn. now rewrite app_nil_r.
  - cbn [forallb] in Hint. apply andb_true_iff in Hint.
    destruct Hint as [He Hrest]. cbn [Views.fresh].
    destruct (existsb (py_eqb (Data.id e)) seen) eqn:E; [now apply IH|].
    cbn [map fold_left]. unfold Views.load_step at 2. cbn [rbind].
    rewrite record_id. unfold Views.int_id in He.
    destruct (Data.id e) as [| | z | | | | |] eqn:Ez; try discriminate He.
    cbn [Data.format_value]. unfold set_add, set_mem. cbn [hashable].
    rewrite E. cbn [rbind]. rewrite (IH _ Hrest).
    now rewrite <- app_assoc.
Qed.

(** X19. A sheet filled by the wrapper from an empty worksheet, with
    records whose ids are integers and at least one row written, gives the
    same wrapper back when a new wrapper is made from it: the sheet is left
    as it is and the ids are those that were inserted. *)
Theorem restart_reloads (entries : list Data.HouseEntry)
    (w0 w : SheetWrapper) :
  init [] = Ok w0 ->
  Tasks.feed Views.sink entries w0 = (w, None) ->
  forallb Views.int_id entries = true ->
  ids w <> [] ->
  init (sheet w) = Ok w.
Proof.
  intros I F Hint Hne.
  assert (E0 : w0 = mk_SheetWrapper [map VStr Data.fields] []).
  { unfold init in I. cbn [get_all_records insert_row] in I.
    now injection I as <-. }
  subst w0.
  destruct (feed_rows entries (mk_SheetWrapper [map VStr Data.fields] []) w
              eq_refl F) as [Hs Hi].
  cbn [sheet ids app] in Hs, Hi.
  destruct w as [rows known]. cbn [sheet ids] in *. subst rows known.
  destruct (Views.fresh [] entries) as [|e0 es] eqn:Ef;
    [now destruct Hne|].
  rewrite (init_records _ (Views.record_of (map VStr Data.fields)
                             (Views.row_of e0))
             (map (Views.record_of (map VStr Data.fields))
                (map Views.row_of es))) by reflexivity.
  change (Views.record_of (map VStr Data.fields) (Views.row_of e0)
          :: map (Views.record_of (map VStr Data.fields))
               (map Views.row_of es))
    with (map (Views.record_of (map VStr Data.fields))
            (map Views.row_of (e0 :: es))).
  rewrite <- Ef.
  match goal with
  | |- rbind ?x _ = _ =>
      replace x with (@Ok pyset (map Data.id (Views.fresh [] entries)))
        by (symmetry; exact (reload entries [] Hint))
  end.
  reflexivity.
Qed.

Lemma restart_reloads_witness :
  exists w,
    Tasks.feed Views.sink [Samples.entry42]
      (mk_SheetWrapper [Samples.header] []) = (w, None)
    /\ init (sheet w) = Ok w.
Proof.
  eexists. split; [reflexivity|].
  apply (restart_reloads [Samples.entry42]
           (mk_SheetWrapper [Samples.header] []));
    [reflexivity | reflexivity | reflexivity | discriminate].
Defined.

Lemma insert_keeps (w w' : SheetWrapper) (entry : Data.HouseEntry)
    (x : value) :
  insert w entry = Ok w' ->
  set_mem x (ids w) = Ok true -> set_mem x (ids w') = Ok true.
Proof.
  intros I M. destruct (insert_cases w w' entry I) as [_ Hc].
  destruct (existsb (py_eqb (Data.id entry)) (ids w)); subst w';
    [exact M|]. cbn [ids]. now apply set_mem_grows.
Qed.

Lemma feed_members (entries : list Data.HouseEntry) :
  forall w w',
    Tasks.feed Views.sink entries w = (w', None) ->
    (forall x, set_mem x (ids w) = Ok true -> set_mem x (ids w') = Ok true)
    /\ forall e, In e entries -> set_mem (Data.id e) (ids w') = Ok true.
Proof.
  induction entries as [|e rest IH]; intros w w' H.
  - cbn in H. injection H as <-. split; [auto|intros e []].
  - cbn [Tasks.feed] in H. unfold Views.sink at 1 in H.
    destruct (insert w e) as [w1|] eqn:I; [|discriminate H].
    destruct (IH w1 w' H) as [Hkeep Hall].
    split.
    + intros x M. apply Hkeep. now apply insert_keeps with w e.
    + intros e' [<-|Hin]; [|now apply Hall].
      apply Hkeep. now apply (insert_member w w1 e I).
Qed.

Lemma feed_all_known (entries : list Data.HouseEntry) (w : SheetWrapper) :
  (forall e, In e entries -> set_mem (Data.id e) (ids w) = Ok true) ->
  Tasks.feed Views.sink entries w = (w, None).
Proof.
  induction entries as [|e rest IH]; intros H; [reflexivity|].
  cbn [Tasks.feed]. unfold Views.sink at 1.
  rewrite (SheetsFacts.insert_known w e (H e (or_introl eq_refl))).
  apply IH. intros e' Hin. apply H. now right.
Qed.

(** Records that were fed once are all known afterwards. *)
Lemma feed_known (entries : list Data.HouseEntry) (w w' : SheetWrapper) :
  Tasks.feed Views.sink entries w = (w', None) ->
  Tasks.feed Views.sink entries w' = (w', None).
Proof.
  intros H. apply feed_all_known. now apply (feed_members entries w w' H).
Qed.

End WrapperFacts.

(* ================================================================= *)
(** ** The session headers *)

Module SessionFacts.
Import Py Session.

(** X20. The headers stored always have a [User-Agent]: the one given,
    or the default one when none is given; every other header is stored as
    given, and storing what was stored changes nothing.  The headers of a
    session are the three credentials followed by the default
    [User-Agent]. *)
Theorem stored_headers (data : dict string) :
  dict_get "User-Agent" (set_headers data)
  = Some (match dict_get "User-Agent" data with
          | Some agent => agent
          | None => default_user_agent
          end)
  /\ (forall k, k <> "User-Agent" ->
                dict_get k (set_headers data) = dict_get k data)
  /\ set_headers (set_headers data) = set_headers data
  /\ forall user,
       enter user = (ota user ++ [("User-Agent", default_user_agent)])%list.
Proof.
  unfold set_headers, dict_mem.
  destruct (dict_get "User-Agent" data) as [agent|] eqn:E.
  - split; [exact E|]. split; [reflexivity|]. split; [|reflexivity].
    now rewrite E.
  - split; [|split; [|split]].
    + now rewrite PyFacts.dict_get_set, String.eqb_refl.
    + intros k Hk. rewrite PyFacts.dict_get_set.
      apply String.eqb_neq in Hk. rewrite String.eqb_sym in Hk.
      now rewrite Hk.
    + now rewrite PyFacts.dict_get_set, String.eqb_refl.
    + reflexivity.
Qed.

End SessionFacts.

(* ================================================================= *)
(** ** Fetching into a sink, and the schedule *)

Module TasksFacts.
Import Py Obj Client Tasks.

Section Sink.
Context {S : Type}.
Variable redirect : Data.HouseEntry -> S -> result S.

Lemma feed_app (hs hs' : list Data.HouseEntry) (s : S) :
  feed redirect (hs ++ hs') s
  = match snd (feed redirect hs s) with
    | Some e => feed redirect hs s
    | None => feed redirect hs' (fst (feed redirect hs s))
    end.
Proof.
  revert s. induction hs as [|h hs IH]; intros s; [reflexivity|].
  cbn [feed app]. destruct (redirect h s) as [s'|e]; [apply IH|reflexivity].
Qed.

Lemma redirect_cards_feed (entries : list value) (s : S) :
  redirect_cards redirect entries s
  = (fst (feed redirect (fst (yield_cards entries)) s),
     Views.ended (feed redirect (fst (yield_cards entries)) s)
       (snd (yield_cards entries))).
Proof.
  revert s. induction entries as [|x xs IH]; intros s; [reflexivity|].
  cbn [redirect_cards yield_cards].
  destruct (_entry_builder x) as [h|e]; [|reflexivity].
  destruct (yield_cards xs) as [hs r] eqn:Y. cbn [fst snd feed] in IH |- *.
  destruct (redirect h s) as [s'|e]; [apply IH|reflexivity].
Qed.

(** The goal left when the generator and the loop stop at the same
    request. *)
Ltac same_stop hs s :=
  cbv zeta; cbn [fst snd yielded raised];
  destruct (feed redirect hs s) as [? [?|]];
  cbn [Views.ended fst snd]; (split; [reflexivity|]);
  exists []; now rewrite app_nil_r.

Lemma fetch_loop_query (P : Provider) (offsets : list Z) :
  forall (p : Params) (s : S) (log : list Request),
    let result := query_loop P p offsets log in
    let fed := feed redirect (yielded (fst result)) s in
    let got := fetch_loop redirect P p offsets s log in
    fst got = (fst fed, Views.ended fed (raised (fst result)))
    /\ exists rest,
         snd result = (snd got ++ rest)%list
         /\ (snd fed = None -> rest = []).
Proof.
  induction offsets as [|i rest IH]; intros p s log.
  - cbn. split; [reflexivity|]. exists []. now rewrite app_nil_r.
  - cbn [query_loop fetch_loop].
    destruct (_execute P (set_offset p i) log) as [[data|e] log1].
    + rewrite redirect_cards_feed.
      destruct (yield_cards (cards data)) as [hs [e|]] eqn:Y; cbn [fst snd].
      * same_stop hs s.
      * destruct (query_loop P (set_offset p i) rest log1)
          as [run1 log2] eqn:R.
        cbv zeta. cbn [fst snd yielded raised]. rewrite feed_app.
        destruct (feed redirect hs s) as [s1 [e1|]] eqn:F;
          cbn [Views.ended fst snd].
        -- split; [reflexivity|].
           destruct (QueryFacts.query_loop_any _ _ _ _ _ _ R)
             as (_ & _ & added & ->).
           exists added. split; [reflexivity|discriminate].
        -- specialize (IH (set_offset p i) s1 log1). rewrite R in IH.
           exact IH.
    + cbn. split; [reflexivity|]. exists []. now rewrite app_nil_r.
Qed.

Lemma fetch_query (P : Provider) (locs house : option (list string))
    (rooms : option (list Z)) (pmin pmax smin smax : option Z) (lim : Z)
    (s : S) (log : list Request) :
  let result := query P locs house rooms pmin pmax smin smax lim log in
  let fed := feed redirect (yielded (fst result)) s in
  let got := fetch redirect P locs house rooms pmin pmax smin smax lim s log in
  fst got = (fst fed, Views.ended fed (raised (fst result)))
  /\ exists rest,
       snd result = (snd got ++ rest)%list
       /\ (snd fed = None -> rest = []).
Proof.
  unfold query, fetch.
  set (p := query_params locs house rooms pmin pmax smin smax lim).
  destruct (_execute P p log) as [[data|e] log1].
  - rewrite redirect_cards_feed.
    destruct (yield_cards (cards data)) as [hs [e|]] eqn:Y; cbn [fst snd].
    + same_stop hs s.
    + destruct (found data >? lim)%Z.
      * destruct (range lim (found data) lim) as [offsets|e].
        -- destruct (query_loop P p offsets log1) as [run1 log2] eqn:R.
           cbv zeta. cbn [fst snd yielded raised]. rewrite feed_app.
           destruct (feed redirect hs s) as [s1 [e1|]] eqn:F;
             cbn [Views.ended fst snd].
           ++ split; [reflexivity|].
              destruct (QueryFacts.query_loop_any _ _ _ _ _ _ R)
                as (_ & _ & added & ->).
              exists added. split; [reflexivity|discriminate].
           ++ pose proof (fetch_loop_query P offsets p s1 log1) as L.
              rewrite R in L. exact L.
        -- same_stop hs s.
      * same_stop hs s.
  - cbn. split; [reflexivity|]. exists []. now rewrite app_nil_r.
Qed.

End Sink.


(** X22. After a run of [fetch_houses] into the sheet that ended without
    an exception, a second run against the same answers of the provider
    ends without an exception, sends the same requests and leaves the
    wrapper, its sheet and its ids, as the first run left it. *)
Theorem second_run_adds_nothing (P : Provider) (num num' : Z)
    (locs house : option (list string)) (rooms : option (list Z))
    (pmin pmax smin smax : option Z) (lim : Z)
    (w w' : Sheets.SheetWrapper) :
  fst (fetch_houses Views.sink P num locs house rooms pmin pmax smin smax
         lim w) = (w', None) ->
  fetch_houses Views.sink P num' locs house rooms pmin pmax smin smax lim w'
  = ((w', None),
     snd (fetch_houses Views.sink P num' locs house rooms pmin pmax smin
            smax lim w)).
Proof.
  unfold fetch_houses.
  destruct (fetch_query Views.sink P locs house rooms pmin pmax smin smax lim
              w []) as (Hf & rest & Hl & Hr).
  destruct (fetch_query Views.sink P locs house rooms pmin pmax smin smax lim
              w' []) as (Hf' & rest' & Hl' & Hr').
  set (run := fst (query P locs house rooms pmin pmax smin smax lim [])) in *.
  destruct (fetch Views.sink P locs house rooms pmin pmax smin smax lim w [])
    as [outcome sent].
  destruct (fetch Views.sink P locs house rooms pmin pmax smin smax lim w' [])
    as [outcome' sent'].
  cbn [fst snd] in *. intros ->.
  destruct (feed Views.sink (yielded run) w) as [w1 fr] eqn:F.
  unfold Views.ended in Hf. cbn [fst snd] in Hf, Hr.
  destruct fr as [e|]; [discriminate Hf|].
  injection Hf as <- Hnone.
  rewrite (WrapperFacts.feed_known _ _ _ F) in Hf', Hr'.
  unfold Views.ended in Hf'. cbn [fst snd] in Hf', Hr'.
  rewrite <- Hnone in Hf'. subst outcome'.
  rewrite (Hr eq_refl), app_nil_r in Hl.
  rewrite (Hr' eq_refl), app_nil_r in Hl'.
  now rewrite <- Hl, Hl'.
Qed.

Lemma second_run_adds_nothing_witness :
  exists w',
    fst (fetch_houses Views.sink (Samples.provider 80) 17 (Some ["Kallio"])
           (Some []) None None None None None 50
           (Sheets.mk_SheetWrapper [Samples.header] [])) = (w', None)
    /\ fst (fetch_houses Views.sink (Samples.provider 80) 4711
              (Some ["Kallio"]) (Some []) None None None None None 50 w')
       = (w', None).
Proof.
  eexists. split; [reflexivity|].
  rewrite (second_run_adds_nothing (Samples.provider 80) 17 4711
             (Some ["Kallio"]) (Some []) None None None None None 50
             (Sheets.mk_SheetWrapper [Samples.header] []) _ eq_refl).
  reflexivity.
Defined.

(** X23. Calling the decorated function only adds a timeout: the
    function is not run.  From then on at most one timeout waits, with the
    interval as its delay; each time it fires the function is run once, and
    a new timeout is added exactly when the function did not raise; once
    the function has raised nothing waits and nothing runs any more. *)
Theorem schedule_chain {W : Type} (interval : Z)
    (func : W -> W * option exn) (w : W) (k : nat) :
  let started := wrapper interval (mk_Loop [] w) in
  let l := Nat.iter k (fire interval func) started in
  started = mk_Loop [interval] w
  /\ (timeouts l = [interval] \/ timeouts l = [])
  /\ (timeouts l = [interval] ->
      fire interval func l
      = mk_Loop (match snd (func (world l)) with
                 | Some _ => []
                 | None => [interval]
                 end)
          (fst (func (world l))))
  /\ (timeouts l = [] -> forall j, Nat.iter j (fire interval func) l = l).
Proof.
  cbv zeta. split; [reflexivity|].
  assert (Step : forall l : Loop W,
             timeouts l = [interval] ->
             fire interval func l
             = mk_Loop (match snd (func (world l)) with
                        | Some _ => []
                        | None => [interval]
                        end)
                 (fst (func (world l)))).
  { intros l E. unfold fire, inner, wrapper. rewrite E. cbn [world timeouts].
    now destruct (func (world l)) as [w' [e|]]. }
  assert (Dead : forall l : Loop W,
             timeouts l = [] -> fire interval func l = l).
  { intros l E. unfold fire. now rewrite E. }
  assert (Inv : timeouts (Nat.iter k (fire interval func)
                            (wrapper interval (mk_Loop [] w))) = [interval]
                \/ timeouts (Nat.iter k (fire interval func)
                               (wrapper interval (mk_Loop [] w))) = []).
  { induction k as [|k IH]; [now left|].
    rewrite Nat.iter_succ. destruct IH as [E|E].
    - rewrite (Step _ E). cbn [timeouts].
      destruct (snd (func _)); [now right|now left].
    - rewrite (Dead _ E). now right. }
  split; [exact Inv|]. split; [apply Step|].
  intros E j. induction j as [|j IHj]; [reflexivity|].
  rewrite Nat.iter_succ, IHj. now apply Dead.
Qed.

End TasksFacts.
